(** * hand_mouse: hand-gesture recognition driving the mouse pointer

    A shallow embedding of [gesture_detector.py], [mouse_controller.py],
    [config.py] and the frame loop of [main.py].

    Python's [float] is kept abstract behind the interface [PyFloat], so that
    every definition is written once, with the source's arithmetic and
    comparisons, and every control-flow theorem holds for any arithmetic.
    Two instances are given: [binary64], IEEE-754 double precision on Rocq's
    primitive floats (what CPython and NumPy compute with), and [exactQ],
    exact rational arithmetic (the reading under which the smoothing formula
    is an identity of real numbers). *)

From Stdlib Require Import ZArith QArith Qround Bool List String Lia Lqa.
From Stdlib Require Floats.PrimFloat Floats.FloatOps Floats.SpecFloat Floats.FloatAxioms.
Import ListNotations.

Set Warnings "-inexact-float".

(** ** Numbers *)

Class PyFloat (F : Type) : Type := {
  lit : Q -> F;            (* a decimal literal of the source text *)
  of_int : Z -> F;         (* the implicit int -> float conversion *)
  to_int : F -> Z;         (* int(v): truncation toward zero *)
  fadd : F -> F -> F;
  fsub : F -> F -> F;
  fmul : F -> F -> F;
  fdiv : F -> F -> F;
  fneg : F -> F;
  fpow2 : F -> F;          (* v ** 2: float.__pow__, the C library's pow(v, 2.0) *)
  fsqrt : F -> F;          (* np.sqrt *)
  flt : F -> F -> bool     (* v < w *)
}.

Arguments lit {F _} _%_Q.

Declare Scope py_scope.
Delimit Scope py_scope with py.
Notation "a + b" := (fadd a b) : py_scope.
Notation "a - b" := (fsub a b) : py_scope.
Notation "a * b" := (fmul a b) : py_scope.
Notation "a / b" := (fdiv a b) : py_scope.
Notation "- a" := (fneg a) : py_scope.
Notation "a <? b" := (flt a b) : py_scope.
Notation "a >? b" := (flt b a) : py_scope.

(** Python's two-argument [min] and [max]: the first argument is kept unless
    the second is strictly smaller (resp. greater). *)
Definition py_min {F} `{PyFloat F} (a b : F) : F := if (b <? a)%py then b else a.

Definition py_max {F} `{PyFloat F} (a b : F) : F := if (b >? a)%py then b else a.

(** *** IEEE-754 binary64 *)

Definition Z2float (n : Z) : PrimFloat.float :=
  FloatOps.SF2Prim (SpecFloat.binary_normalize FloatOps.prec FloatOps.emax n 0 false).

(** [int(f)] for a finite [f]; CPython raises on nan and infinities, which
    the callers below never pass (they clamp first); the model answers 0. *)
Definition float2Z (f : PrimFloat.float) : Z :=
  match FloatOps.Prim2SF f with
  | SpecFloat.S754_finite s m e =>
      let a := Z.shiftl (Zpos m) e in if s then (- a)%Z else a
  | _ => 0%Z
  end.

(** [v ** 2] is left to the C library's [pow], which IEEE-754 does not
    specify: it may differ from the correctly rounded square in the last bit
    on rare inputs.  The instance takes the correctly rounded square
    [v * v], which the sample runs evaluate; the theorems stated for any
    [PyFloat] hold whatever [fpow2] is. *)
#[export] Instance binary64 : PyFloat PrimFloat.float := {
  lit q := PrimFloat.div (Z2float (Qnum q)) (Z2float (Zpos (Qden q)));
  of_int := Z2float;
  to_int := float2Z;
  fadd := PrimFloat.add;
  fsub := PrimFloat.sub;
  fmul := PrimFloat.mul;
  fdiv := PrimFloat.div;
  fneg := PrimFloat.opp;
  fpow2 v := PrimFloat.mul v v;
  fsqrt := PrimFloat.sqrt;
  flt := PrimFloat.ltb
}.

(** *** Exact rationals *)

(** Square root on rationals: exact on squares of rationals, rounded down on
    the grid of the denominator otherwise. *)
Definition Qsqrt (q : Q) : Q := Z.sqrt (Qnum q * Zpos (Qden q)) # Qden q.

Definition Qtrunc (q : Q) : Z := Z.quot (Qnum q) (Zpos (Qden q)).

Definition Qltb (a b : Q) : bool := negb (Qle_bool b a).

#[export] Instance exactQ : PyFloat Q := {
  lit q := q;
  of_int := inject_Z;
  to_int := Qtrunc;
  fadd := Qplus;
  fsub := Qminus;
  fmul := Qmult;
  fdiv := Qdiv;
  fneg := Qopp;
  fpow2 q := Qmult q q;
  fsqrt := Qsqrt;
  flt := Qltb
}.

(** ** config.py *)

Module config.
Section Config.
Context {F : Type} `{PyFloat F}.

Definition CLICK_COOLDOWN : F := lit 0.15.

Definition SCROLL_COOLDOWN : F := lit 0.05.

Definition PINCH_THRESHOLD : F := lit 0.05.

Definition FIST_THRESHOLD : F := lit 0.08.

Definition SWIPE_THRESHOLD : F := lit 0.04.

Definition SMOOTH_FACTOR : F := lit 0.5.

End Config.

Definition SCROLL_SENSITIVITY : Z := 8.

Definition FRAME_WIDTH : Z := 640.

Definition FRAME_HEIGHT : Z := 480.

Definition SCREEN_PADDING : Z := 50.

End config.

(** ** gesture_detector.py *)

Section GestureDetector.
Context {F : Type} `{PyFloat F}.
Local Open Scope py_scope.

(** A MediaPipe landmark and the 21 landmarks of one hand, by index. *)
Record landmark : Type := { x : F; y : F; z : F }.

Definition hand_landmarks : Type := nat -> landmark.

(** The dictionary built by [get_finger_tip_positions]. *)
Record positions : Type := {
  thumb : landmark;
  index : landmark;
  middle : landmark;
  ring : landmark;
  pinky : landmark;
  wrist : landmark;
  palm : landmark
}.

Definition get_finger_tip_positions (landmarks : hand_landmarks) : positions :=
  {| thumb := landmarks 4%nat;
     index := landmarks 8%nat;
     middle := landmarks 12%nat;
     ring := landmarks 16%nat;
     pinky := landmarks 20%nat;
     wrist := landmarks 0%nat;
     palm := landmarks 9%nat |}.

Definition calculate_distance (point1 point2 : landmark) : F :=
  fsqrt (fpow2 (x point1 - x point2) +
         fpow2 (y point1 - y point2) +
         fpow2 (z point1 - z point2)).

Definition detect_pinch (p : positions) : bool :=
  let thumb_index_dist := calculate_distance (thumb p) (index p) in
  thumb_index_dist <? config.PINCH_THRESHOLD.

Definition detect_only_index_up (p : positions) : bool :=
  let index_dist := calculate_distance (index p) (palm p) in
  let middle_dist := calculate_distance (middle p) (palm p) in
  let ring_dist := calculate_distance (ring p) (palm p) in
  let pinky_dist := calculate_distance (pinky p) (palm p) in
  (index_dist >? lit 0.14) &&
  (middle_dist <? lit 0.12) &&
  (ring_dist <? lit 0.12) &&
  (pinky_dist <? lit 0.12).

Definition detect_thumb_index_open (p : positions) : bool :=
  let thumb_dist := calculate_distance (thumb p) (palm p) in
  let index_dist := calculate_distance (index p) (palm p) in
  let thumb_index_dist := calculate_distance (thumb p) (index p) in
  let both_extended := (thumb_dist >? lit 0.12) && (index_dist >? lit 0.15) in
  let not_pinching := thumb_index_dist >? config.PINCH_THRESHOLD in
  both_extended && not_pinching.

Definition detect_open_hand (p : positions) : bool :=
  let thumb_dist := calculate_distance (thumb p) (palm p) in
  let index_dist := calculate_distance (index p) (palm p) in
  let middle_dist := calculate_distance (middle p) (palm p) in
  let ring_dist := calculate_distance (ring p) (palm p) in
  let pinky_dist := calculate_distance (pinky p) (palm p) in
  (thumb_dist >? lit 0.13) &&
  (index_dist >? lit 0.15) &&
  (middle_dist >? lit 0.14) &&
  (ring_dist >? lit 0.14) &&
  (pinky_dist >? lit 0.14).

(** [np.mean] of a list: the left-to-right sum divided by the length. *)
Definition np_mean (l : list F) : F :=
  fold_left fadd l (of_int 0) / of_int (Z.of_nat (List.length l)).

(** Python's [max] of a non-empty list. *)
Definition py_max_list (l : list F) : F :=
  match l with
  | [] => of_int 0
  | a :: l' => fold_left py_max l' a
  end.

Definition detect_fist (p : positions) : bool :=
  let distances :=
    [ calculate_distance (thumb p) (palm p);
      calculate_distance (index p) (palm p);
      calculate_distance (middle p) (palm p);
      calculate_distance (ring p) (palm p);
      calculate_distance (pinky p) (palm p) ] in
  let avg_distance := np_mean distances in
  let max_distance := py_max_list distances in
  let thumb_dist := nth 0 distances (of_int 0) in
  let index_dist := nth 1 distances (of_int 0) in
  (avg_distance <? config.FIST_THRESHOLD) &&
  (max_distance <? config.FIST_THRESHOLD * lit 2.0) &&
  (thumb_dist <? lit 0.10) &&
  (index_dist <? lit 0.10).

(** The mutable fields of a [GestureDetector] instance. *)
Record GestureDetector : Type := {
  prev_open_hand_y : option F;
  prev_index_pos : option (F * F);
  last_click_time : F;
  last_right_click_time : F;
  last_scroll_time : F;
  is_pinching : bool;
  pinch_start_time : F;
  current_gesture : string
}.

(** The fields as [__init__] leaves them. *)
Definition GestureDetector_init : GestureDetector :=
  {| prev_open_hand_y := None;
     prev_index_pos := None;
     last_click_time := of_int 0;
     last_right_click_time := of_int 0;
     last_scroll_time := of_int 0;
     is_pinching := false;
     pinch_start_time := of_int 0;
     current_gesture := "None" |}.

Definition set_prev_open_hand_y (v : option F) (self : GestureDetector) :=
  {| prev_open_hand_y := v;
     prev_index_pos := prev_index_pos self;
     last_click_time := last_click_time self;
     last_right_click_time := last_right_click_time self;
     last_scroll_time := last_scroll_time self;
     is_pinching := is_pinching self;
     pinch_start_time := pinch_start_time self;
     current_gesture := current_gesture self |}.

Definition set_last_click_time (v : F) (self : GestureDetector) :=
  {| prev_open_hand_y := prev_open_hand_y self;
     prev_index_pos := prev_index_pos self;
     last_click_time := v;
     last_right_click_time := last_right_click_time self;
     last_scroll_time := last_scroll_time self;
     is_pinching := is_pinching self;
     pinch_start_time := pinch_start_time self;
     current_gesture := current_gesture self |}.

Definition set_last_right_click_time (v : F) (self : GestureDetector) :=
  {| prev_open_hand_y := prev_open_hand_y self;
     prev_index_pos := prev_index_pos self;
     last_click_time := last_click_time self;
     last_right_click_time := v;
     last_scroll_time := last_scroll_time self;
     is_pinching := is_pinching self;
     pinch_start_time := pinch_start_time self;
     current_gesture := current_gesture self |}.

Definition set_last_scroll_time (v : F) (self : GestureDetector) :=
  {| prev_open_hand_y := prev_open_hand_y self;
     prev_index_pos := prev_index_pos self;
     last_click_time := last_click_time self;
     last_right_click_time := last_right_click_time self;
     last_scroll_time := v;
     is_pinching := is_pinching self;
     pinch_start_time := pinch_start_time self;
     current_gesture := current_gesture self |}.

Definition set_is_pinching (v : bool) (self : GestureDetector) :=
  {| prev_open_hand_y := prev_open_hand_y self;
     prev_index_pos := prev_index_pos self;
     last_click_time := last_click_time self;
     last_right_click_time := last_right_click_time self;
     last_scroll_time := last_scroll_time self;
     is_pinching := v;
     pinch_start_time := pinch_start_time self;
     current_gesture := current_gesture self |}.

Definition set_pinch_start_time (v : F) (self : GestureDetector) :=
  {| prev_open_hand_y := prev_open_hand_y self;
     prev_index_pos := prev_index_pos self;
     last_click_time := last_click_time self;
     last_right_click_time := last_right_click_time self;
     last_scroll_time := last_scroll_time self;
     is_pinching := is_pinching self;
     pinch_start_time := v;
     current_gesture := current_gesture self |}.

Definition set_current_gesture (v : string) (self : GestureDetector) :=
  {| prev_open_hand_y := prev_open_hand_y self;
     prev_index_pos := prev_index_pos self;
     last_click_time := last_click_time self;
     last_right_click_time := last_right_click_time self;
     last_scroll_time := last_scroll_time self;
     is_pinching := is_pinching self;
     pinch_start_time := pinch_start_time self;
     current_gesture := v |}.

(** The value returned by [detect_open_hand_swipe] when it is not [None]. *)
Inductive swipe : Type := scroll_up | scroll_down.

Definition detect_open_hand_swipe (p : positions) (frame_height : Z)
    (self : GestureDetector) : GestureDetector * option swipe :=
  if negb (detect_open_hand p) then (set_prev_open_hand_y None self, None)
  else
    let current_y := y (palm p) * of_int frame_height in
    match prev_open_hand_y self with
    | None => (set_prev_open_hand_y (Some current_y) self, None)
    | Some prev =>
        let y_diff := prev - current_y in
        let threshold := of_int frame_height * config.SWIPE_THRESHOLD in
        if y_diff >? threshold then
          (set_prev_open_hand_y (Some current_y) self, Some scroll_down)
        else if y_diff <? - threshold then
          (set_prev_open_hand_y (Some current_y) self, Some scroll_up)
        else (self, None)
    end.

Definition get_index_position (p : positions) (frame_width frame_height : Z)
    : F * F :=
  (x (index p) * of_int frame_width, y (index p) * of_int frame_height).

End GestureDetector.

Arguments landmark F : clear implicits.
Arguments hand_landmarks F : clear implicits.
Arguments positions F : clear implicits.
Arguments GestureDetector F : clear implicits.

(** *** recognize_gesture *)

(** The dictionary [{'type': ..., 'data': ...}] returned for each frame. *)
Inductive gesture_type : Type :=
| none | left_press | left_hold | pinch_drag | left_release
| right_click | move | scroll.

Inductive direction : Type := up | down.

Inductive gesture_data (F : Type) : Type :=
| NoData                       (* None *)
| Pos (p : F * F)              (* index_pos *)
| Dir (d : direction).         (* 'up' or 'down' *)

Arguments NoData {F}.
Arguments Pos {F} p.
Arguments Dir {F} d.

Record gesture_result (F : Type) : Type := {
  type : gesture_type;
  data : gesture_data F
}.

Arguments type {F} _.
Arguments data {F} _.

Section Recognize.
Context {F : Type} `{PyFloat F}.
Local Open Scope py_scope.

(** A run of statements of the body of [recognize_gesture]: it updates the
    fields of [self] and either executes [return r] ([Some r]) or lets
    control fall through to the statement after it ([None]). *)
Definition Stmt : Type :=
  GestureDetector F -> GestureDetector F * option (gesture_result F).

Definition seq (s1 s2 : Stmt) : Stmt :=
  fun self =>
    match s1 self with
    | (self', None) => s2 self'
    | returned => returned
    end.

Infix ";;" := seq (at level 61, right associativity).

Variable p : positions F.
Variable frame_width frame_height : Z.
Variable current_time : F.

(** Lines 277-317, repeated at lines 386-426. *)
Definition pinch_block : Stmt := fun self =>
  if detect_pinch p then
    if negb (is_pinching self) then
      if current_time - last_click_time self >? config.CLICK_COOLDOWN then
        let self := set_is_pinching true self in
        let self := set_pinch_start_time current_time self in
        let self := set_last_click_time current_time self in
        let self := set_current_gesture "Pinch Start (Left Press)" self in
        (self, Some {| type := left_press; data := NoData |})
      else (self, None)
    else
      let pinch_duration := current_time - pinch_start_time self in
      if pinch_duration >? lit 1.0 then
        let index_pos := get_index_position p frame_width frame_height in
        let self := set_current_gesture "Pinch Hold + Move (Dragging)" self in
        (self, Some {| type := pinch_drag; data := Pos index_pos |})
      else
        let self := set_current_gesture "Pinch Hold (Holding)" self in
        (self, Some {| type := left_hold; data := NoData |})
  else
    if is_pinching self then
      let self := set_is_pinching false self in
      let self := set_current_gesture "Pinch Release" self in
      (self, Some {| type := left_release; data := NoData |})
    else (self, None).

(** Lines 319-334, repeated at lines 428-443 and 503-518. *)
Definition fist_block : Stmt := fun self =>
  if detect_fist p then
    if current_time - last_right_click_time self >? config.CLICK_COOLDOWN then
      let self := set_current_gesture "Fist (Right Click)" self in
      let self := set_last_right_click_time current_time self in
      (self, Some {| type := right_click; data := NoData |})
    else
      let self := set_current_gesture "Fist (Cooldown)" self in
      (self, Some {| type := none; data := NoData |})
  else (self, None).

(** Lines 336-343, repeated at lines 445-452 and 520-527. *)
Definition index_block : Stmt := fun self =>
  if detect_only_index_up p then
    let index_pos := get_index_position p frame_width frame_height in
    let self := set_current_gesture "Move (Index Only)" self in
    (self, Some {| type := move; data := Pos index_pos |})
  else (self, None).

(** Lines 345-351, repeated at lines 378-384 and 454-460. *)
Definition thumb_index_open_block : Stmt := fun self =>
  if detect_thumb_index_open p then
    let self := set_current_gesture "Thumb + Index Open (No Action)" self in
    (self, Some {| type := none; data := NoData |})
  else (self, None).

(** Truth value of the result of [detect_open_hand_swipe]. *)
Definition truthy (swipe_result : option swipe) : bool :=
  match swipe_result with Some _ => true | None => false end.

(** Lines 353-376. *)
Definition open_hand_block : Stmt := fun self =>
  if detect_open_hand p then
    let (self, swipe_result) := detect_open_hand_swipe p frame_height self in
    if truthy swipe_result &&
       (current_time - last_scroll_time self >? config.SCROLL_COOLDOWN) then
      let self := set_last_scroll_time current_time self in
      match swipe_result with
      | Some scroll_up =>
          let self := set_current_gesture "Open Hand Swipe Down (Scroll UP)" self in
          (self, Some {| type := scroll; data := Dir up |})
      | Some scroll_down =>
          let self := set_current_gesture "Open Hand Swipe Up (Scroll DOWN)" self in
          (self, Some {| type := scroll; data := Dir down |})
      | None => (self, None)
      end
    else
      let self := set_current_gesture "Open Hand Ready" self in
      (self, Some {| type := none; data := NoData |})
  else (self, None).

(** Lines 462-501: the second open-hand check, whose body is the pinch
    press, hold, drag and release logic. *)
Definition open_hand_block_2 : Stmt := fun self =>
  if detect_open_hand p then
    if negb (is_pinching self) then
      if current_time - last_click_time self >? config.CLICK_COOLDOWN then
        let self := set_is_pinching true self in
        let self := set_pinch_start_time current_time self in
        let self := set_last_click_time current_time self in
        let self := set_current_gesture "Pinch Start (Left Press)" self in
        (self, Some {| type := left_press; data := NoData |})
      else (self, None)
    else
      let pinch_duration := current_time - pinch_start_time self in
      if pinch_duration >? lit 1.0 then
        let index_pos := get_index_position p frame_width frame_height in
        let self := set_current_gesture "Pinch Hold + Move (Dragging)" self in
        (self, Some {| type := pinch_drag; data := Pos index_pos |})
      else
        let self := set_current_gesture "Pinch Hold (Holding)" self in
        (self, Some {| type := left_hold; data := NoData |})
  else
    if is_pinching self then
      let self := set_is_pinching false self in
      let self := set_current_gesture "Pinch Release" self in
      (self, Some {| type := left_release; data := NoData |})
    else (self, None).

(** Lines 529-534. *)
Definition idle_block : Stmt := fun self =>
  let self := set_current_gesture "Idle" self in
  (self, Some {| type := none; data := NoData |}).

(** Lines 277-376: the first pass over the five gestures. *)
Definition first_pass : Stmt :=
  pinch_block ;; fist_block ;; index_block ;; thumb_index_open_block ;;
  open_hand_block.

(** Lines 378-527: the repeated checks that follow the first pass. *)
Definition later_blocks : Stmt :=
  thumb_index_open_block ;;
  pinch_block ;; fist_block ;; index_block ;; thumb_index_open_block ;;
  open_hand_block_2 ;;
  fist_block ;; index_block.

(** Lines 277-534, the body of [recognize_gesture] once a hand is there. *)
Definition hand_body : Stmt := first_pass ;; later_blocks ;; idle_block.

(** The single ordered decision chain: pinch, fist, index-only,
    thumb-index-open, open-hand swipe, idle. *)
Definition decision_chain : Stmt := first_pass ;; idle_block.

End Recognize.

Arguments Stmt F : clear implicits.

Section RecognizeGesture.
Context {F : Type} `{PyFloat F}.

(** The value of a call whose body ends in a [return]; a Python function
    that runs off its end returns [None], which no block sequence closed by
    [idle_block] does. *)
Definition returned (out : GestureDetector F * option (gesture_result F))
    : GestureDetector F * gesture_result F :=
  match out with
  | (self, Some r) => (self, r)
  | (self, None) => (self, {| type := none; data := NoData |})
  end.

(** Lines 255-262: no hand in the frame. *)
Definition no_hand (self : GestureDetector F)
    : GestureDetector F * gesture_result F :=
  let self := set_current_gesture "None" self in
  let self := set_prev_open_hand_y None self in
  let self := set_is_pinching false self in
  (self, {| type := none; data := NoData |}).

(** [recognize_gesture(self, results, frame_shape)]; [multi_hand_landmarks]
    is [results.multi_hand_landmarks], [frame_shape] holds the height and the
    width of the frame, and [current_time] is what [time.time()] answers. *)
Definition recognize_gesture (self : GestureDetector F)
    (multi_hand_landmarks : option (list (hand_landmarks F)))
    (frame_shape : Z * Z) (current_time : F)
    : GestureDetector F * gesture_result F :=
  match multi_hand_landmarks with
  | None | Some [] => no_hand self
  | Some (landmarks :: _) =>
      let positions := get_finger_tip_positions landmarks in
      let (frame_height, frame_width) := frame_shape in
      returned (hand_body positions frame_width frame_height current_time self)
  end.

(** The same entry point over the single decision chain. *)
Definition recognize_gesture_chain (self : GestureDetector F)
    (multi_hand_landmarks : option (list (hand_landmarks F)))
    (frame_shape : Z * Z) (current_time : F)
    : GestureDetector F * gesture_result F :=
  match multi_hand_landmarks with
  | None | Some [] => no_hand self
  | Some (landmarks :: _) =>
      let positions := get_finger_tip_positions landmarks in
      let (frame_height, frame_width) := frame_shape in
      returned (decision_chain positions frame_width frame_height current_time self)
  end.

(** One camera frame as the detector sees it. *)
Record Frame : Type := {
  multi_hand_landmarks : option (list (hand_landmarks F));
  shape : Z * Z;
  clock : F
}.

Definition step (self : GestureDetector F) (f : Frame)
    : GestureDetector F * gesture_result F :=
  recognize_gesture self (multi_hand_landmarks f) (shape f) (clock f).

(** The detector fed a sequence of frames: the final fields and the results
    in order. *)
Fixpoint run (self : GestureDetector F) (frames : list Frame)
    : GestureDetector F * list (gesture_result F) :=
  match frames with
  | [] => (self, [])
  | f :: rest =>
      let (self1, r) := step self f in
      let (self2, rs) := run self1 rest in
      (self2, r :: rs)
  end.

End RecognizeGesture.

Arguments Frame F : clear implicits.

(** ** mouse_controller.py *)

(** The calls made on the PyAutoGUI backend. *)
Inductive pyautogui_call : Type :=
| moveTo (sx sy : Z)
| mouseDown_left
| mouseUp_left
| click_right
| scroll_wheel (amount : Z).

Section MouseController.
Context {F : Type} `{PyFloat F}.
Local Open Scope py_scope.

Record MouseController : Type := {
  screen_width : Z;
  screen_height : Z;
  prev_mouse_x : option F;
  prev_mouse_y : option F;
  map_width : Z;
  map_height : Z
}.

(** [__init__], given what [pyautogui.size()] answers. *)
Definition MouseController_init (size : Z * Z) : MouseController :=
  let (w, h) := size in
  {| screen_width := w;
     screen_height := h;
     prev_mouse_x := None;
     prev_mouse_y := None;
     map_width := (w - 2 * config.SCREEN_PADDING)%Z;
     map_height := (h - 2 * config.SCREEN_PADDING)%Z |}.

Definition set_prev_mouse (vx vy : option F) (self : MouseController) :=
  {| screen_width := screen_width self;
     screen_height := screen_height self;
     prev_mouse_x := vx;
     prev_mouse_y := vy;
     map_width := map_width self;
     map_height := map_height self |}.

Definition map_coordinates (self : MouseController) (hand_x hand_y : F)
    (frame_width frame_height : Z) : Z * Z :=
  let norm_x := hand_x / of_int frame_width in
  let norm_y := hand_y / of_int frame_height in
  let screen_x := of_int config.SCREEN_PADDING + norm_x * of_int (map_width self) in
  let screen_y := of_int config.SCREEN_PADDING + norm_y * of_int (map_height self) in
  let screen_x := py_max (of_int 0) (py_min (of_int (screen_width self - 1)) screen_x) in
  let screen_y := py_max (of_int 0) (py_min (of_int (screen_height self - 1)) screen_y) in
  (to_int screen_x, to_int screen_y).

Definition smooth_coordinates (self : MouseController) (current_x current_y : Z)
    : MouseController * (Z * Z) :=
  match prev_mouse_x self, prev_mouse_y self with
  | Some prev_x, Some prev_y =>
      let smooth_x := config.SMOOTH_FACTOR * prev_x +
                      (of_int 1 - config.SMOOTH_FACTOR) * of_int current_x in
      let smooth_y := config.SMOOTH_FACTOR * prev_y +
                      (of_int 1 - config.SMOOTH_FACTOR) * of_int current_y in
      (set_prev_mouse (Some smooth_x) (Some smooth_y) self,
       (to_int smooth_x, to_int smooth_y))
  | _, _ =>
      (set_prev_mouse (Some (of_int current_x)) (Some (of_int current_y)) self,
       (current_x, current_y))
  end.

Definition move_mouse (self : MouseController) (hand_x hand_y : F)
    (frame_width frame_height : Z) : MouseController * list pyautogui_call :=
  let (screen_x, screen_y) :=
    map_coordinates self hand_x hand_y frame_width frame_height in
  let '(self, (smooth_x, smooth_y)) := smooth_coordinates self screen_x screen_y in
  (self, [moveTo smooth_x smooth_y]).

Definition scroll_call (d : direction) : list pyautogui_call :=
  let scroll_amount := (config.SCROLL_SENSITIVITY * 3)%Z in
  match d with
  | up => [scroll_wheel scroll_amount]
  | down => [scroll_wheel (- scroll_amount)]
  end.

(** [execute_gesture]; a [data] of the wrong shape for its [type], which
    [recognize_gesture] never builds, makes no call on the backend. *)
Definition execute_gesture (self : MouseController) (gesture_result : gesture_result F)
    (frame_width frame_height : Z) : MouseController * list pyautogui_call :=
  match type gesture_result, data gesture_result with
  | move, Pos (hand_x, hand_y) => move_mouse self hand_x hand_y frame_width frame_height
  | left_press, _ => (self, [mouseDown_left])
  | left_hold, _ => (self, [])
  | pinch_drag, Pos (hand_x, hand_y) => move_mouse self hand_x hand_y frame_width frame_height
  | left_release, _ => (self, [mouseUp_left])
  | right_click, _ => (self, [click_right])
  | scroll, Dir d => (self, scroll_call d)
  | _, _ => (self, [])
  end.

Definition reset_smoothing (self : MouseController) : MouseController :=
  set_prev_mouse None None self.

End MouseController.

Arguments MouseController F : clear implicits.

(** ** main.py: one iteration of the frame loop *)

Section Main.
Context {F : Type} `{PyFloat F}.

Definition is_none (t : gesture_type) : bool :=
  match t with none => true | _ => false end.

(** Lines 93-115 of [main]: recognise, then either execute the gesture or
    reset the smoothing. The backend is taken not to fail. *)
Definition main_iteration (gesture_detector : GestureDetector F)
    (mouse_controller : MouseController F) (f : Frame F)
    : GestureDetector F * MouseController F * gesture_result F * list pyautogui_call :=
  let (gesture_detector, gesture_result) :=
    recognize_gesture gesture_detector (multi_hand_landmarks f) (shape f) (clock f) in
  if negb (is_none (type gesture_result)) then
    let (mouse_controller, calls) :=
      execute_gesture mouse_controller gesture_result
        config.FRAME_WIDTH config.FRAME_HEIGHT in
    (gesture_detector, mouse_controller, gesture_result, calls)
  else
    (gesture_detector, reset_smoothing mouse_controller, gesture_result, []).

(** The frame loop over a sequence of frames. *)
Fixpoint main_loop (gesture_detector : GestureDetector F)
    (mouse_controller : MouseController F) (frames : list (Frame F))
    : GestureDetector F * MouseController F * list (gesture_result F) :=
  match frames with
  | [] => (gesture_detector, mouse_controller, [])
  | f :: rest =>
      let '(gd, mc, r, _) := main_iteration gesture_detector mouse_controller f in
      let '(gd', mc', rs) := main_loop gd mc rest in
      (gd', mc', r :: rs)
  end.

End Main.

(** ** Vocabulary of the specification *)

Section Vocabulary.
Context {F : Type} `{PyFloat F}.
Local Open Scope py_scope.

(** The static pose of one hand: the detectors in their priority order. *)
Inductive PoseLabel : Type :=
| Pinch | Fist | IndexOnly | ThumbIndexOpen | OpenHand | Idle.

Definition pose (p : positions F) : PoseLabel :=
  if detect_pinch p then Pinch
  else if detect_fist p then Fist
  else if detect_only_index_up p then IndexOnly
  else if detect_thumb_index_open p then ThumbIndexOpen
  else if detect_open_hand p then OpenHand
  else Idle.

(** The fingertip positions of the hand of a frame, when it shows one. *)
Definition frame_positions (f : Frame F) : option (positions F) :=
  match multi_hand_landmarks f with
  | Some (landmarks :: _) => Some (get_finger_tip_positions landmarks)
  | _ => None
  end.

(** The pose of a frame; [None] when no hand is in it. *)
Definition frame_pose (f : Frame F) : option PoseLabel :=
  option_map pose (frame_positions f).

(** The commands of the specification as results of [recognize_gesture]. *)
Definition LeftPress : gesture_result F := {| type := left_press; data := NoData |}.

Definition LeftHold : gesture_result F := {| type := left_hold; data := NoData |}.

Definition LeftRelease : gesture_result F := {| type := left_release; data := NoData |}.

Definition RightClick : gesture_result F := {| type := right_click; data := NoData |}.

Definition Drag (pos : F * F) : gesture_result F := {| type := pinch_drag; data := Pos pos |}.

Definition Move (pos : F * F) : gesture_result F := {| type := move; data := Pos pos |}.

Definition Scroll (d : direction) : gesture_result F := {| type := scroll; data := Dir d |}.

Definition NoCommand : gesture_result F := {| type := none; data := NoData |}.

(** The index fingertip of a frame in pixels: the landmark's [x] times the
    frame width and its [y] times the frame height, the frame's shape being
    (height, width). *)
Definition frame_index_position (f : Frame F) : F * F :=
  match frame_positions f with
  | Some p =>
      let frame_height := fst (shape f) in
      let frame_width := snd (shape f) in
      (x (index p) * of_int frame_width, y (index p) * of_int frame_height)
  | None => (of_int 0, of_int 0)
  end.

(** What a frame of a held pinch answers, [start] being the time of the
    press: [Drag] once more than one second has passed, [LeftHold] before. *)
Definition held_pinch_command (start : F) (f : Frame F) : gesture_result F :=
  if clock f - start >? lit 1.0 then Drag (frame_index_position f) else LeftHold.

(** The palm height in pixels and the swipe displacement and threshold of
    [detect_open_hand_swipe]. *)
Definition palm_y (p : positions F) (frame_height : Z) : F :=
  y (palm p) * of_int frame_height.

Definition swipe_delta (ref : F) (p : positions F) (frame_height : Z) : F :=
  ref - palm_y p frame_height.

Definition swipe_threshold (frame_height : Z) : F :=
  of_int frame_height * config.SWIPE_THRESHOLD.

(** The mouse controller driven [n] more times with one hand position;
    the targets of the successive [moveTo] calls. *)
Fixpoint repeat_move (n : nat) (self : MouseController F) (hand_x hand_y : F)
    (frame_width frame_height : Z) : list (list pyautogui_call) :=
  match n with
  | O => []
  | S n' =>
      let (self', calls) := move_mouse self hand_x hand_y frame_width frame_height in
      calls :: repeat_move n' self' hand_x hand_y frame_width frame_height
  end.

(** ** Sample hands and frames *)

Definition pt (a b c : Q) : landmark F := {| x := lit a; y := lit b; z := lit c |}.

Definition hand (thumb_tip index_tip middle_tip ring_tip pinky_tip palm_centre : landmark F)
    : hand_landmarks F :=
  fun i =>
    match i with
    | 4%nat => thumb_tip
    | 8%nat => index_tip
    | 12%nat => middle_tip
    | 16%nat => ring_tip
    | 20%nat => pinky_tip
    | 9%nat => palm_centre
    | _ => pt 0.5 0.875 0
    end.

(** Thumb and index tips 0.03125 apart, away from the palm. *)
Definition pinch_hand : hand_landmarks F :=
  hand (pt 0.5 0.5 0) (pt 0.5 0.53125 0) (pt 0.5 0.5 0) (pt 0.5 0.5 0)
       (pt 0.5 0.5 0) (pt 0.5 0.75 0).

(** All five tips within 0.0625 of the palm, thumb and index 0.03125 apart:
    both a pinch and a fist. *)
Definition pinch_fist_hand : hand_landmarks F :=
  hand (pt 0.5 0.53125 0) (pt 0.5 0.5625 0) (pt 0.5 0.5625 0) (pt 0.5 0.5625 0)
       (pt 0.5 0.5625 0) (pt 0.5 0.5 0).

(** All five tips 0.0625 from the palm, thumb and index 0.125 apart. *)
Definition fist_hand : hand_landmarks F :=
  hand (pt 0.5 0.4375 0) (pt 0.5 0.5625 0) (pt 0.5 0.5625 0) (pt 0.5 0.5625 0)
       (pt 0.5 0.5625 0) (pt 0.5 0.5 0).

(** Index tip 0.25 from the palm, the other three fingers curled. *)
Definition index_hand : hand_landmarks F :=
  hand (pt 0.5625 0.5 0) (pt 0.5 0.25 0) (pt 0.5 0.5625 0) (pt 0.5 0.5625 0)
       (pt 0.5 0.5625 0) (pt 0.5 0.5 0).

(** No gesture: index tip 0.125 from the palm, thumb 0.125 from the index. *)
Definition relaxed_hand : hand_landmarks F :=
  hand (pt 0.5 0.5 0) (pt 0.5 0.625 0) (pt 0.5 0.75 0) (pt 0.5 0.75 0)
       (pt 0.5 0.75 0) (pt 0.5 0.75 0).

(** Five fingers 0.25 from the palm, thumb and index tips exactly
    [PINCH_THRESHOLD] apart; the palm is at height 0.375. *)
Definition open_hand_high : hand_landmarks F :=
  hand (pt 0.05 0.125 0) (pt 0 0.125 0) (pt 0.25 0.375 0) (pt 0 0.625 0)
       (pt 0 0.375 0.25) (pt 0 0.375 0).

(** The same hand lower in the picture: the palm is at height 0.75. *)
Definition open_hand_low : hand_landmarks F :=
  hand (pt 0.05 0.5 0) (pt 0 0.5 0) (pt 0.25 0.75 0) (pt 0 1 0)
       (pt 0 0.75 0.25) (pt 0 0.75 0).

(** The index-only hand with its index tip at x = 8611278408378751 / 2^55,
    a double slightly above 435/1820. *)
Definition boundary_hand : hand_landmarks F :=
  hand (pt 0.5625 0.5 0) (pt (8611278408378751 # 36028797018963968) 0.25 0)
       (pt 0.5 0.5625 0) (pt 0.5 0.5625 0) (pt 0.5 0.5625 0) (pt 0.5 0.5 0).

(** A 640x480 frame showing one hand at time [t]. *)
Definition frame_at (t : Q) (h : hand_landmarks F) : Frame F :=
  {| multi_hand_landmarks := Some [h];
     shape := (config.FRAME_HEIGHT, config.FRAME_WIDTH);
     clock := lit t |}.

(** A 640x480 frame without a hand at time [t]. *)
Definition empty_frame (t : Q) : Frame F :=
  {| multi_hand_landmarks := None;
     shape := (config.FRAME_HEIGHT, config.FRAME_WIDTH);
     clock := lit t |}.

End Vocabulary.

(** The detector as [__init__] leaves it, on IEEE-754 doubles. *)
Definition fresh_detector : GestureDetector PrimFloat.float := GestureDetector_init.

(** One smoothing step of [smooth_coordinates] on one axis: the new
    smoothed value from the previous one [prev] and the integer sample. *)
Definition smooth_step {F : Type} `{PyFloat F} (prev : F) (current : Z) : F :=
  (config.SMOOTH_FACTOR * prev +
   (of_int 1 - config.SMOOTH_FACTOR) * of_int current)%py.

(** The stored previous coordinates stand for the integers [sx] and [sy],
    in the sense of the relation [R]. *)
Definition anchored {F : Type} (R : F -> Z -> Prop) (self : MouseController F)
    (sx sy : Z) : Prop :=
  exists px py,
    prev_mouse_x self = Some px /\ prev_mouse_y self = Some py /\
    R px sx /\ R py sy.

(** [P] holds of the [n] integers from [c] on. *)
Fixpoint all_from (n : nat) (c : Z) (P : Z -> bool) : bool :=
  match n with
  | O => true
  | S n' => P c && all_from n' (c + 1)%Z P
  end.

(** On doubles: the integer [c] is converted exactly and is a fixed point
    of the smoothing step. *)
Definition fixed_on_binary64 (c : Z) : bool :=
  PrimFloat.Leibniz.eqb (smooth_step (of_int c) c) (of_int c) &&
  (to_int (of_int c : PrimFloat.float) =? c)%Z.

(** On doubles: the integer [c] is converted to zero (and is 0) or to a
    positive normal number of value [c], with a mantissa of 53 bits and a
    negative exponent. *)
Definition normal_on_binary64 (c : Z) : bool :=
  match FloatOps.Prim2SF (of_int c) with
  | SpecFloat.S754_zero false => (c =? 0)%Z
  | SpecFloat.S754_finite false m e =>
      (e <? 0)%Z && (2 ^ 52 <=? Zpos m)%Z && (Zpos m =? c * 2 ^ (- e))%Z
  | _ => false
  end.

(** ** Further vocabulary *)

Section FurtherVocabulary.
Context {F : Type} `{PyFloat F}.
Local Open Scope py_scope.

(** [get_current_gesture_text]: the text shown on the camera picture. *)
Definition get_current_gesture_text (self : GestureDetector F) : string :=
  current_gesture self.

(** The texts under which a result is shown. *)
Definition texts_of (r : gesture_result F) : list string :=
  match type r, data r with
  | left_press, _ => ["Pinch Start (Left Press)"]
  | left_hold, _ => ["Pinch Hold (Holding)"]
  | pinch_drag, _ => ["Pinch Hold + Move (Dragging)"]
  | left_release, _ => ["Pinch Release"]
  | right_click, _ => ["Fist (Right Click)"]
  | move, _ => ["Move (Index Only)"]
  | scroll, Dir up => ["Open Hand Swipe Down (Scroll UP)"]
  | scroll, Dir down => ["Open Hand Swipe Up (Scroll DOWN)"]
  | scroll, _ => []
  | none, _ =>
      ["None"; "Fist (Cooldown)"; "Thumb + Index Open (No Action)";
       "Open Hand Ready"; "Idle"]
  end%string.

(** Presses and releases alternate in a list of result types, [down] telling
    whether the button is held at its start. *)
Fixpoint well_paired (down : bool) (types : list gesture_type) : bool :=
  match types with
  | [] => true
  | left_press :: rest => negb down && well_paired true rest
  | left_release :: rest => down && well_paired false rest
  | _ :: rest => well_paired down rest
  end.

(** Whether the left button is held after a list of result types. *)
Fixpoint button_down (down : bool) (types : list gesture_type) : bool :=
  match types with
  | [] => down
  | left_press :: rest => button_down true rest
  | left_release :: rest => button_down false rest
  | _ :: rest => button_down down rest
  end.

(** Tests on the type of a result. *)
Definition is_left_press (t : gesture_type) : bool :=
  match t with left_press => true | _ => false end.

Definition is_right_click (t : gesture_type) : bool :=
  match t with right_click => true | _ => false end.

Definition is_scroll (t : gesture_type) : bool :=
  match t with scroll => true | _ => false end.

(** The clamping of [map_coordinates] on one axis of size [size]. *)
Definition clamp_to_screen (size : Z) (v : F) : F :=
  py_max (of_int 0) (py_min (of_int (size - 1)) v).

End FurtherVocabulary.

(** ** The backend may raise *)

(** What a PyAutoGUI call does: it returns, or raises the fail-safe
    exception (the pointer is in a corner of the screen), or raises some
    other exception. *)
Inductive backend_outcome : Type :=
| returns | raises_FailSafeException | raises_other.

(** The exception that leaves a method, if any. *)
Inductive propagated : Type :=
| no_exception | FailSafeException | other_exception.

Section GuardedBackend.
Context {F : Type} `{PyFloat F}.
Variable backend : pyautogui_call -> backend_outcome.

(** [try: call except pyautogui.FailSafeException: print; raise], the
    handler of [move_mouse]: both kinds of exception leave it. *)
Definition reraising (c : pyautogui_call) : propagated :=
  match backend c with
  | returns => no_exception
  | raises_FailSafeException => FailSafeException
  | raises_other => other_exception
  end.

(** [try: call; print except Exception as e: print], the handler of
    [left_press], [left_release], [right_click] and [scroll]: nothing
    leaves it, the fail-safe exception being an [Exception] too. *)
Definition swallowing (c : pyautogui_call) : propagated :=
  match backend c with
  | returns => no_exception
  | raises_FailSafeException => no_exception
  | raises_other => no_exception
  end.

(** [move_mouse], lines 73-94: the coordinates are mapped and smoothed
    before [moveTo] is called. *)
Definition move_mouse_guarded (self : MouseController F) (hand_x hand_y : F)
    (frame_width frame_height : Z) : MouseController F * propagated :=
  let (screen_x, screen_y) :=
    map_coordinates self hand_x hand_y frame_width frame_height in
  let '(self, (smooth_x, smooth_y)) := smooth_coordinates self screen_x screen_y in
  (self, reraising (moveTo smooth_x smooth_y)).

Definition left_press_guarded : propagated := swallowing mouseDown_left.

Definition left_release_guarded : propagated := swallowing mouseUp_left.

Definition right_click_guarded : propagated := swallowing click_right.

(** [scroll], lines 128-142. *)
Definition scroll_guarded (d : direction) : propagated :=
  let scroll_amount := (config.SCROLL_SENSITIVITY * 3)%Z in
  match d with
  | up => swallowing (scroll_wheel scroll_amount)
  | down => swallowing (scroll_wheel (- scroll_amount))
  end.

(** [execute_gesture], lines 144-180, with what leaves it. *)
Definition execute_gesture_guarded (self : MouseController F)
    (gesture_result : gesture_result F) (frame_width frame_height : Z)
    : MouseController F * propagated :=
  match type gesture_result, data gesture_result with
  | move, Pos (hand_x, hand_y) =>
      move_mouse_guarded self hand_x hand_y frame_width frame_height
  | left_press, _ => (self, left_press_guarded)
  | left_hold, _ => (self, no_exception)
  | pinch_drag, Pos (hand_x, hand_y) =>
      move_mouse_guarded self hand_x hand_y frame_width frame_height
  | left_release, _ => (self, left_release_guarded)
  | right_click, _ => (self, right_click_guarded)
  | scroll, Dir d => (self, scroll_guarded d)
  | _, _ => (self, no_exception)
  end.

(** Lines 93-115 of [main] with their handler: the last component tells
    whether the loop goes on ([true]) or is left by [break] ([false]). *)
Definition main_iteration_guarded (gesture_detector : GestureDetector F)
    (mouse_controller : MouseController F) (f : Frame F)
    : GestureDetector F * MouseController F * gesture_result F * bool :=
  let (gesture_detector, gesture_result) :=
    recognize_gesture gesture_detector (multi_hand_landmarks f) (shape f) (clock f) in
  if negb (is_none (type gesture_result)) then
    let (mouse_controller, e) :=
      execute_gesture_guarded mouse_controller gesture_result
        config.FRAME_WIDTH config.FRAME_HEIGHT in
    match e with
    | FailSafeException => (gesture_detector, mouse_controller, gesture_result, false)
    | _ => (gesture_detector, mouse_controller, gesture_result, true)
    end
  else
    (gesture_detector, reset_smoothing mouse_controller, gesture_result, true).

End GuardedBackend.

(** * Properties *)

(** ** The blocks of [recognize_gesture] *)

Section BlockFacts.
Context {F : Type} `{PyFloat F}.
Local Open Scope py_scope.

Variable p : positions F.
Variable frame_width frame_height : Z.
Variable current_time : F.

Ltac split_ifs :=
  repeat match goal with
  | |- context [if ?b then _ else _] => destruct b eqn:?
  | |- context [match ?o with Some _ => _ | None => _ end] => destruct o eqn:?
  | |- context [match ?o with scroll_up => _ | scroll_down => _ end] => destruct o eqn:?
  end.

(** The pinch block falls through only with the fields untouched, no pinch
    in progress, and either no pinch in the frame or a press refused by the
    click cooldown. *)
Lemma pinch_block_falls self self' :
  pinch_block p frame_width frame_height current_time self = (self', None) ->
  self' = self /\ is_pinching self = false /\
  (detect_pinch p = false \/
   (current_time - last_click_time self >? config.CLICK_COOLDOWN) = false).
Proof.
  unfold pinch_block.
  destruct (detect_pinch p); destruct (is_pinching self); cbn [negb];
    split_ifs; intros E; inversion E; subst; auto.
Qed.

Lemma pinch_block_fall_through self :
  is_pinching self = false ->
  (detect_pinch p = false \/
   (current_time - last_click_time self >? config.CLICK_COOLDOWN) = false) ->
  pinch_block p frame_width frame_height current_time self = (self, None).
Proof.
  intros Hp Hc. unfold pinch_block. rewrite Hp. cbn [negb].
  destruct (detect_pinch p); [|reflexivity].
  destruct Hc as [Hc|Hc]; [discriminate|]. now rewrite Hc.
Qed.

Lemma fist_block_falls self self' :
  fist_block p current_time self = (self', None) ->
  self' = self /\ detect_fist p = false.
Proof.
  unfold fist_block. split_ifs; intros E; inversion E; subst; auto.
Qed.

Lemma index_block_falls self self' :
  index_block p frame_width frame_height self = (self', None) ->
  self' = self /\ detect_only_index_up p = false.
Proof.
  unfold index_block. split_ifs; intros E; inversion E; subst; auto.
Qed.

Lemma thumb_index_open_block_falls self self' :
  thumb_index_open_block p self = (self', None) ->
  self' = self /\ detect_thumb_index_open p = false.
Proof.
  unfold thumb_index_open_block. split_ifs; intros E; inversion E; subst; auto.
Qed.

(** The open-hand block returns whenever the hand is open. *)
Lemma open_hand_block_falls self self' :
  open_hand_block p frame_height current_time self = (self', None) ->
  self' = self /\ detect_open_hand p = false.
Proof.
  unfold open_hand_block.
  destruct (detect_open_hand p); [|intros E; inversion E; auto].
  destruct (detect_open_hand_swipe p frame_height self) as [s [[]|]];
    cbn [truthy andb]; split_ifs; intros E; inversion E.
Qed.

Lemma seq_falls (s1 s2 : Stmt F) self self' :
  seq s1 s2 self = (self', None) ->
  exists mid, s1 self = (mid, None) /\ s2 mid = (self', None).
Proof.
  unfold seq. destruct (s1 self) as [mid [r|]]; intros E; [discriminate|].
  exists mid; auto.
Qed.

(** What is known once the first pass has fallen through. *)
Lemma first_pass_falls self self' :
  first_pass p frame_width frame_height current_time self = (self', None) ->
  self' = self /\ is_pinching self = false /\
  (detect_pinch p = false \/
   (current_time - last_click_time self >? config.CLICK_COOLDOWN) = false) /\
  detect_fist p = false /\ detect_only_index_up p = false /\
  detect_thumb_index_open p = false /\ detect_open_hand p = false.
Proof.
  unfold first_pass. intros E.
  apply seq_falls in E as (s1 & E1 & E).
  apply seq_falls in E as (s2 & E2 & E).
  apply seq_falls in E as (s3 & E3 & E).
  apply seq_falls in E as (s4 & E4 & E5).
  apply pinch_block_falls in E1 as (-> & Hp & Hc).
  apply fist_block_falls in E2 as (-> & Hf).
  apply index_block_falls in E3 as (-> & Hi).
  apply thumb_index_open_block_falls in E4 as (-> & Ht).
  apply open_hand_block_falls in E5 as (-> & Ho).
  repeat split; assumption.
Qed.

(** Under the same facts every repeated check falls through untouched. *)
Lemma later_blocks_fall_through self :
  is_pinching self = false ->
  (detect_pinch p = false \/
   (current_time - last_click_time self >? config.CLICK_COOLDOWN) = false) ->
  detect_fist p = false -> detect_only_index_up p = false ->
  detect_thumb_index_open p = false -> detect_open_hand p = false ->
  later_blocks p frame_width frame_height current_time self = (self, None).
Proof.
  intros Hp Hc Hf Hi Ht Ho.
  unfold later_blocks, seq.
  unfold thumb_index_open_block at 1. rewrite Ht.
  rewrite (pinch_block_fall_through self Hp Hc).
  unfold fist_block at 1. rewrite Hf.
  unfold index_block at 1. rewrite Hi.
  unfold thumb_index_open_block. rewrite Ht.
  unfold open_hand_block_2. rewrite Ho, Hp.
  unfold fist_block. rewrite Hf.
  unfold index_block. rewrite Hi. reflexivity.
Qed.

(** The repeated checks after a first pass that fell through. *)
Lemma later_blocks_dead self :
  match first_pass p frame_width frame_height current_time self with
  | (self', None) =>
      later_blocks p frame_width frame_height current_time self' = (self', None)
  | (_, Some _) => True
  end.
Proof.
  destruct (first_pass p frame_width frame_height current_time self)
    as [s' [r|]] eqn:E; [exact I|].
  apply first_pass_falls in E as (-> & Hp & Hc & Hf & Hi & Ht & Ho).
  now apply later_blocks_fall_through.
Qed.

Lemma hand_body_decision_chain self :
  hand_body p frame_width frame_height current_time self =
  decision_chain p frame_width frame_height current_time self.
Proof.
  unfold hand_body, decision_chain.
  pose proof (later_blocks_dead self) as D.
  unfold seq at 1 3.
  destruct (first_pass p frame_width frame_height current_time self)
    as [s' [r|]]; [reflexivity|].
  unfold seq. now rewrite D.
Qed.

(** The block that returned, when the first pass returns. *)
Lemma first_pass_cases self self' r :
  first_pass p frame_width frame_height current_time self = (self', Some r) ->
  pinch_block p frame_width frame_height current_time self = (self', Some r) \/
  (is_pinching self = false /\
   (fist_block p current_time self = (self', Some r) \/
    index_block p frame_width frame_height self = (self', Some r) \/
    thumb_index_open_block p self = (self', Some r) \/
    open_hand_block p frame_height current_time self = (self', Some r))).
Proof.
  unfold first_pass, seq.
  destruct (pinch_block p frame_width frame_height current_time self)
    as [s1 [r1|]] eqn:E1; [auto|].
  apply pinch_block_falls in E1 as (-> & Hp & _).
  intros E. right. split; [exact Hp|].
  destruct (fist_block p current_time self) as [s2 [r2|]] eqn:E2; [auto|].
  apply fist_block_falls in E2 as (-> & _).
  destruct (index_block p frame_width frame_height self) as [s3 [r3|]] eqn:E3;
    [auto|].
  apply index_block_falls in E3 as (-> & _).
  destruct (thumb_index_open_block p self) as [s4 [r4|]] eqn:E4; [auto|].
  apply thumb_index_open_block_falls in E4 as (-> & _). auto.
Qed.

(** The body either returns what its first pass returns or is idle. *)
Lemma hand_body_cases self :
  (exists self' r,
     first_pass p frame_width frame_height current_time self = (self', Some r) /\
     returned (hand_body p frame_width frame_height current_time self) = (self', r)) \/
  (is_pinching self = false /\
   returned (hand_body p frame_width frame_height current_time self) =
   (set_current_gesture "Idle" self, {| type := none; data := NoData |})).
Proof.
  rewrite hand_body_decision_chain. unfold decision_chain, seq.
  destruct (first_pass p frame_width frame_height current_time self)
    as [s' [r|]] eqn:E.
  - left. now exists s', r.
  - right. apply first_pass_falls in E as (-> & Hp & _). now split.
Qed.

(** What each block can return, and what it does to [is_pinching]. *)
Lemma pinch_block_returns self self' r :
  pinch_block p frame_width frame_height current_time self = (self', Some r) ->
  (is_pinching self = false /\ is_pinching self' = true /\ type r = left_press) \/
  (is_pinching self = true /\ is_pinching self' = true /\
   (type r = left_hold \/ type r = pinch_drag)) \/
  (is_pinching self = true /\ is_pinching self' = false /\ type r = left_release).
Proof.
  unfold pinch_block.
  destruct (detect_pinch p); destruct (is_pinching self) eqn:Hp; cbn [negb];
    split_ifs; intros E; inversion E; subst; cbn; auto 6.
Qed.

Lemma fist_block_returns self self' r :
  fist_block p current_time self = (self', Some r) ->
  is_pinching self' = is_pinching self /\
  prev_open_hand_y self' = prev_open_hand_y self /\
  (type r = right_click \/ type r = none).
Proof.
  unfold fist_block. split_ifs; intros E; inversion E; subst; cbn; auto.
Qed.

Lemma index_block_returns self self' r :
  index_block p frame_width frame_height self = (self', Some r) ->
  is_pinching self' = is_pinching self /\
  prev_open_hand_y self' = prev_open_hand_y self /\ type r = move.
Proof.
  unfold index_block. split_ifs; intros E; inversion E; subst; cbn; auto.
Qed.

Lemma thumb_index_open_block_returns self self' r :
  thumb_index_open_block p self = (self', Some r) ->
  is_pinching self' = is_pinching self /\
  prev_open_hand_y self' = prev_open_hand_y self /\ type r = none.
Proof.
  unfold thumb_index_open_block. split_ifs; intros E; inversion E; subst; cbn; auto.
Qed.

Lemma open_hand_block_returns self self' r :
  open_hand_block p frame_height current_time self = (self', Some r) ->
  is_pinching self' = is_pinching self /\
  (type r = none \/ (type r = scroll /\ prev_open_hand_y self <> None)).
Proof.
  unfold open_hand_block, detect_open_hand_swipe.
  destruct (detect_open_hand p); cbn [negb]; [|discriminate].
  destruct (prev_open_hand_y self) as [prev|]; split_ifs;
    cbn [truthy andb] in *; try discriminate;
    intros E; inversion E; subst; cbn; split; auto; right; split; auto;
    discriminate.
Qed.

End BlockFacts.

(** ** C8: the repeated checks are dead code *)

Section DeadCode.
Context {F : Type} `{PyFloat F}.

(** C8. For every detector state, detection result, frame shape and clock
    reading, [recognize_gesture] returns the same result and leaves the same
    fields as the single decision chain (pinch, fist, index-only,
    thumb-index-open, open-hand swipe, idle); and whenever the first pass
    falls through, the repeated checks of lines 378-527, the pinch-press
    logic inside the second open-hand branch included, neither return nor
    change a field. *)
Theorem recognize_gesture_dead_code_equivalence :
  forall (self : GestureDetector F) (results : option (list (hand_landmarks F)))
         (frame_shape : Z * Z) (current_time : F),
    recognize_gesture self results frame_shape current_time =
    recognize_gesture_chain self results frame_shape current_time /\
    (forall (p : positions F) (frame_width frame_height : Z),
       match first_pass p frame_width frame_height current_time self with
       | (self', None) =>
           later_blocks p frame_width frame_height current_time self' = (self', None)
       | (_, Some _) => True
       end).
Proof.
  intros self results [fh fw] t. split.
  - unfold recognize_gesture, recognize_gesture_chain.
    destruct results as [[|lm rest]|]; try reflexivity.
    now rewrite hand_body_decision_chain.
  - intros p w h. apply later_blocks_dead.
Qed.

End DeadCode.

(** ** C1: the life cycle of a pinch *)

Section PinchLifecycle.
Context {F : Type} `{PyFloat F}.
Local Open Scope py_scope.

Lemma pose_Pinch (p : positions F) : pose p = Pinch <-> detect_pinch p = true.
Proof.
  unfold pose. destruct (detect_pinch p); [tauto|].
  split; [|discriminate].
  destruct (detect_fist p), (detect_only_index_up p),
    (detect_thumb_index_open p), (detect_open_hand p); discriminate.
Qed.

(** A frame with a hand runs the body on the fingertips of its first hand. *)
Lemma step_hand self (f : Frame F) (p : positions F) :
  frame_positions f = Some p ->
  step self f =
  returned (hand_body p (snd (shape f)) (fst (shape f)) (clock f) self).
Proof.
  unfold frame_positions, step, recognize_gesture.
  destruct (multi_hand_landmarks f) as [[|lm rest]|]; try discriminate.
  intros [= <-]. now destruct (shape f).
Qed.

Lemma frame_pose_Pinch (f : Frame F) :
  frame_pose f = Some Pinch <->
  exists p, frame_positions f = Some p /\ detect_pinch p = true.
Proof.
  unfold frame_pose. destruct (frame_positions f) as [p|]; cbn.
  - split.
    + intros [= E]. apply pose_Pinch in E. now exists p.
    + intros (q & [= <-] & E). apply pose_Pinch in E. now rewrite E.
  - split; [discriminate|]. now intros (q & E & _).
Qed.

(** A body whose pinch block returns answers what that block answers. *)
Lemma hand_body_pinch_returns (p : positions F) fw fh t self self' r :
  pinch_block p fw fh t self = (self', Some r) ->
  returned (hand_body p fw fh t self) = (self', r).
Proof.
  intros E. unfold hand_body, first_pass, seq. now rewrite E.
Qed.

(** Press: no pinch in progress, a pinch in the frame, cooldown over. *)
Lemma step_press self (f : Frame F) :
  is_pinching self = false ->
  frame_pose f = Some Pinch ->
  (clock f - last_click_time self >? config.CLICK_COOLDOWN) = true ->
  step self f =
  (set_current_gesture "Pinch Start (Left Press)"
     (set_last_click_time (clock f)
        (set_pinch_start_time (clock f) (set_is_pinching true self))),
   LeftPress).
Proof.
  intros Hp Hf Hc. apply frame_pose_Pinch in Hf as (p & Hf & Hd).
  rewrite (step_hand self f p Hf).
  apply hand_body_pinch_returns.
  unfold pinch_block. now rewrite Hd, Hp, Hc.
Qed.

(** Hold and drag: a pinch in progress and a pinch in the frame. *)
Lemma step_held self (f : Frame F) :
  is_pinching self = true ->
  frame_pose f = Some Pinch ->
  step self f =
  (set_current_gesture
     (if clock f - pinch_start_time self >? lit 1.0
      then "Pinch Hold + Move (Dragging)" else "Pinch Hold (Holding)")%string self,
   held_pinch_command (pinch_start_time self) f).
Proof.
  intros Hp Hf. apply frame_pose_Pinch in Hf as (p & Hf & Hd).
  rewrite (step_hand self f p Hf).
  apply hand_body_pinch_returns.
  unfold pinch_block, held_pinch_command, frame_index_position.
  rewrite Hd, Hp, Hf. cbn [negb].
  destruct (clock f - pinch_start_time self >? lit 1.0); reflexivity.
Qed.

(** Release: a pinch in progress and a hand that does not pinch. *)
Lemma step_release self (f : Frame F) (l : PoseLabel) :
  is_pinching self = true ->
  frame_pose f = Some l -> l <> Pinch ->
  step self f =
  (set_current_gesture "Pinch Release" (set_is_pinching false self), LeftRelease).
Proof.
  intros Hp Hf Hl. unfold frame_pose in Hf.
  destruct (frame_positions f) as [p|] eqn:Hpos; [|discriminate].
  injection Hf as Hf.
  assert (Hd : detect_pinch p = false).
  { destruct (detect_pinch p) eqn:E; [|reflexivity].
    apply pose_Pinch in E. congruence. }
  rewrite (step_hand self f p Hpos).
  apply hand_body_pinch_returns.
  unfold pinch_block. rewrite Hd, Hp. reflexivity.
Qed.

Lemma run_app (l1 l2 : list (Frame F)) self :
  run self (l1 ++ l2) =
  (fst (run (fst (run self l1)) l2),
   snd (run self l1) ++ snd (run (fst (run self l1)) l2)).
Proof.
  revert self. induction l1 as [|f l1 IH]; intros self; cbn [run app fst snd].
  - now destruct (run self l2).
  - destruct (step self f) as [s1 r]. rewrite IH.
    destruct (run s1 l1) as [s2 rs]. cbn [fst snd].
    destruct (run s2 l2). reflexivity.
Qed.

(** While the pinch lasts the detector stays pressed, keeps the time of the
    press, and answers [held_pinch_command] frame by frame. *)
Lemma run_held (held : list (Frame F)) : forall self,
  is_pinching self = true ->
  Forall (fun f => frame_pose f = Some Pinch) held ->
  snd (run self held) = map (held_pinch_command (pinch_start_time self)) held /\
  is_pinching (fst (run self held)) = true /\
  pinch_start_time (fst (run self held)) = pinch_start_time self.
Proof.
  induction held as [|f held IH]; intros self Hp Hall; cbn [run map].
  - auto.
  - inversion Hall as [|? ? Hf Hrest]; subst.
    rewrite (step_held self f Hp Hf).
    set (s1 := set_current_gesture _ self).
    destruct (IH s1 Hp Hrest) as (E1 & E2 & E3).
    destruct (run s1 held) as [s2 rs]. cbn [fst snd] in *.
    subst rs. auto.
Qed.

(** C1. From a detector with no pinch in progress, let a frame [f0] show a
    pinch when the click cooldown is over, let every frame of [held] show a
    pinch, and let [fr] show a hand whose pose is not a pinch. Then [f0]
    answers [LeftPress] and sets [is_pinching] and [pinch_start_time]; every
    frame of [held] answers [LeftHold] as long as the time since the press
    is at most one second and, once it is more, [Drag] with its own
    index-fingertip position in pixels, the landmark's [x] times the frame
    width and its [y] times the frame height ([held_pinch_command]); and
    [fr] answers [LeftRelease] and clears [is_pinching], whatever the phase
    [held] ended in. *)
Theorem pinch_lifecycle :
  forall (self : GestureDetector F) (f0 : Frame F) (held : list (Frame F))
         (fr : Frame F) (l : PoseLabel),
    is_pinching self = false ->
    frame_pose f0 = Some Pinch ->
    (clock f0 - last_click_time self >? config.CLICK_COOLDOWN) = true ->
    Forall (fun f => frame_pose f = Some Pinch) held ->
    frame_pose fr = Some l -> l <> Pinch ->
    snd (step self f0) = LeftPress /\
    is_pinching (fst (step self f0)) = true /\
    pinch_start_time (fst (step self f0)) = clock f0 /\
    snd (run self (f0 :: held ++ [fr])) =
      LeftPress :: map (held_pinch_command (clock f0)) held ++ [LeftRelease] /\
    is_pinching (fst (run self (f0 :: held ++ [fr]))) = false.
Proof.
  intros self f0 held fr l Hp H0 Hc Hheld Hr Hl.
  pose proof (step_press self f0 Hp H0 Hc) as E0.
  cbn [run]. rewrite E0. cbn [fst snd].
  set (s1 := set_current_gesture _ _).
  assert (Hp1 : is_pinching s1 = true) by reflexivity.
  assert (Ht1 : pinch_start_time s1 = clock f0) by reflexivity.
  repeat split.
  - rewrite run_app.
    destruct (run_held held s1 Hp1 Hheld) as (E1 & E2 & E3).
    destruct (run s1 held) as [s2 rs]. cbn [fst snd] in *.
    cbn [run]. rewrite (step_release s2 fr l E2 Hr Hl).
    cbn [fst snd]. now rewrite E1, Ht1.
  - rewrite run_app.
    destruct (run_held held s1 Hp1 Hheld) as (E1 & E2 & E3).
    destruct (run s1 held) as [s2 rs]. cbn [fst snd] in *.
    cbn [run]. now rewrite (step_release s2 fr l E2 Hr Hl).
Qed.

End PinchLifecycle.

(** ** Frames whose pose is an open hand *)

Section OpenHandFrames.
Context {F : Type} `{PyFloat F}.
Local Open Scope py_scope.

Lemma pose_OpenHand (p : positions F) :
  pose p = OpenHand ->
  detect_pinch p = false /\ detect_fist p = false /\
  detect_only_index_up p = false /\ detect_thumb_index_open p = false /\
  detect_open_hand p = true.
Proof.
  unfold pose.
  destruct (detect_pinch p), (detect_fist p), (detect_only_index_up p),
    (detect_thumb_index_open p), (detect_open_hand p);
    try discriminate; auto.
Qed.

(** With no pinch in progress, an open hand is handled by the open-hand
    block of the first pass. *)
Lemma step_open_hand self (f : Frame F) (p : positions F) :
  frame_positions f = Some p -> pose p = OpenHand -> is_pinching self = false ->
  step self f = returned (open_hand_block p (fst (shape f)) (clock f) self).
Proof.
  intros Hf Hpose Hp.
  apply pose_OpenHand in Hpose as (Hd & Hfist & Hi & Ht & Ho).
  rewrite (step_hand self f p Hf).
  unfold hand_body, first_pass, seq.
  rewrite (pinch_block_fall_through p _ _ _ self Hp (or_introl Hd)).
  unfold fist_block at 1. rewrite Hfist.
  unfold index_block at 1. rewrite Hi.
  unfold thumb_index_open_block at 1. rewrite Ht.
  destruct (open_hand_block p (fst (shape f)) (clock f) self) as [s [r|]] eqn:E;
    [reflexivity|].
  apply open_hand_block_falls in E as (_ & E). congruence.
Qed.

(** X10. The first open-hand frame only records the palm height. *)
Lemma first_open_hand_frame_sets_reference self (f : Frame F) (p : positions F) :
  frame_positions f = Some p -> pose p = OpenHand -> is_pinching self = false ->
  prev_open_hand_y self = None ->
  snd (step self f) = NoCommand /\
  prev_open_hand_y (fst (step self f)) = Some (palm_y p (fst (shape f))).
Proof.
  intros Hf Hpose Hp Hprev.
  rewrite (step_open_hand self f p Hf Hpose Hp).
  apply pose_OpenHand in Hpose as (_ & _ & _ & _ & Ho).
  unfold open_hand_block, detect_open_hand_swipe. rewrite Ho, Hprev.
  cbn. auto.
Qed.

(** X9. A scroll is only answered by a frame that starts with the reference
    palm height already recorded. *)
Lemma scroll_needs_reference self (f : Frame F) :
  type (snd (step self f)) = scroll -> prev_open_hand_y self <> None.
Proof.
  unfold step, recognize_gesture.
  destruct (multi_hand_landmarks f) as [[|lm rest]|]; try discriminate.
  destruct (shape f) as [fh fw].
  set (p := get_finger_tip_positions lm).
  destruct (hand_body_cases p fw fh (clock f) self)
    as [(s' & r & E & ->)|(_ & ->)]; [|discriminate].
  cbn [snd]. intros Hr.
  apply first_pass_cases in E as [E|(_ & [E|[E|[E|E]]])].
  - apply pinch_block_returns in E as [(_ & _ & E)|[(_ & _ & [E|E])|(_ & _ & E)]];
      congruence.
  - apply fist_block_returns in E as (_ & _ & [E|E]); congruence.
  - apply index_block_returns in E as (_ & _ & E); congruence.
  - apply thumb_index_open_block_returns in E as (_ & _ & E); congruence.
  - apply open_hand_block_returns in E as (_ & [E|(_ & E)]); congruence.
Qed.

(** C4, as the code has it. On an open-hand frame handled by the open-hand
    block, with the reference palm height [ref] recorded and the scroll
    cooldown over, let [delta] be [ref] minus the current palm height: the
    answer is [Scroll down] when [delta] exceeds the threshold, and
    [Scroll up] when [delta] is below minus the threshold. *)
Theorem scroll_direction_inverted :
  forall (self : GestureDetector F) (f : Frame F) (p : positions F) (ref : F),
    frame_positions f = Some p -> pose p = OpenHand -> is_pinching self = false ->
    prev_open_hand_y self = Some ref ->
    (clock f - last_scroll_time self >? config.SCROLL_COOLDOWN) = true ->
    let delta := swipe_delta ref p (fst (shape f)) in
    let threshold := swipe_threshold (fst (shape f)) in
    ((delta >? threshold) = true -> snd (step self f) = Scroll down) /\
    ((delta >? threshold) = false -> (delta <? - threshold) = true ->
     snd (step self f) = Scroll up).
Proof.
  intros self f p ref Hf Hpose Hp Hprev Hcool delta threshold.
  rewrite (step_open_hand self f p Hf Hpose Hp).
  apply pose_OpenHand in Hpose as (_ & _ & _ & _ & Ho).
  unfold open_hand_block, detect_open_hand_swipe. rewrite Ho, Hprev.
  cbn [negb].
  fold (palm_y p (fst (shape f))). fold (swipe_delta ref p (fst (shape f))).
  fold (swipe_threshold (fst (shape f))). fold delta. fold threshold.
  split.
  - intros E. rewrite E. cbn. now rewrite Hcool.
  - intros E1 E2. rewrite E1, E2. cbn. now rewrite Hcool.
Qed.

(** C5, as the code has it. On an open-hand frame handled by the open-hand
    block, with the reference palm height [ref] recorded: when the
    displacement exceeds the threshold in neither direction the reference is
    left as it was and nothing is answered; when it exceeds it in either
    direction the reference becomes the current palm height, whether or not
    the scroll cooldown lets the frame answer a scroll; and a frame that
    answers a scroll has moved the reference. *)
Theorem swipe_reference_update :
  forall (self : GestureDetector F) (f : Frame F) (p : positions F) (ref : F),
    frame_positions f = Some p -> pose p = OpenHand -> is_pinching self = false ->
    prev_open_hand_y self = Some ref ->
    let delta := swipe_delta ref p (fst (shape f)) in
    let threshold := swipe_threshold (fst (shape f)) in
    let exceeded := (delta >? threshold) || (delta <? - threshold) in
    (exceeded = false ->
     prev_open_hand_y (fst (step self f)) = Some ref /\
     snd (step self f) = NoCommand) /\
    (exceeded = true ->
     prev_open_hand_y (fst (step self f)) = Some (palm_y p (fst (shape f)))) /\
    (type (snd (step self f)) = scroll -> exceeded = true).
Proof.
  intros self f p ref Hf Hpose Hp Hprev delta threshold exceeded.
  rewrite (step_open_hand self f p Hf Hpose Hp).
  apply pose_OpenHand in Hpose as (_ & _ & _ & _ & Ho).
  unfold open_hand_block, detect_open_hand_swipe. rewrite Ho, Hprev.
  cbn [negb].
  fold (palm_y p (fst (shape f))). fold (swipe_delta ref p (fst (shape f))).
  fold (swipe_threshold (fst (shape f))). fold delta. fold threshold.
  subst exceeded.
  destruct (delta >? threshold); [|destruct (delta <? - threshold)];
    cbn [orb truthy andb];
    try destruct (clock f - last_scroll_time _ >? config.SCROLL_COOLDOWN);
    cbn; repeat split; auto; try discriminate.
Qed.

End OpenHandFrames.

(** ** The pinch flag and the reference palm height, frame by frame *)

Section FlagFacts.
Context {F : Type} `{PyFloat F}.
Local Open Scope py_scope.

(** On a frame that shows a hand, [is_pinching] is set exactly by a frame
    that answers a press and cleared exactly by one that answers a release. *)
Lemma pinch_flag_with_hand self (f : Frame F) (p : positions F) :
  frame_positions f = Some p ->
  (is_pinching self = false /\ is_pinching (fst (step self f)) = true /\
   type (snd (step self f)) = left_press) \/
  (is_pinching self = true /\ is_pinching (fst (step self f)) = false /\
   type (snd (step self f)) = left_release) \/
  (is_pinching (fst (step self f)) = is_pinching self /\
   type (snd (step self f)) <> left_press /\
   type (snd (step self f)) <> left_release).
Proof.
  intros Hf. rewrite (step_hand self f p Hf).
  destruct (hand_body_cases p (snd (shape f)) (fst (shape f)) (clock f) self)
    as [(s' & r & E & ->)|(_ & ->)]; cbn [fst snd].
  - apply first_pass_cases in E as [E|(_ & [E|[E|[E|E]]])].
    + apply pinch_block_returns in E
        as [(E1 & E2 & E3)|[(E1 & E2 & [E3|E3])|(E1 & E2 & E3)]];
        rewrite ?E1, ?E2, ?E3; auto; right; right; repeat split; discriminate.
    + apply fist_block_returns in E as (E1 & _ & [E3|E3]);
        rewrite E1, E3; right; right; repeat split; discriminate.
    + apply index_block_returns in E as (E1 & _ & E3);
        rewrite E1, E3; right; right; repeat split; discriminate.
    + apply thumb_index_open_block_returns in E as (E1 & _ & E3);
        rewrite E1, E3; right; right; repeat split; discriminate.
    + apply open_hand_block_returns in E as (E1 & [E3|(E3 & _)]);
        rewrite E1, E3; right; right; repeat split; discriminate.
  - right; right. repeat split; discriminate.
Qed.

(** A frame without a hand clears both the pinch flag and the reference
    palm height, and answers nothing. *)
Lemma step_no_hand self (f : Frame F) :
  frame_positions f = None ->
  step self f = no_hand self /\
  is_pinching (fst (step self f)) = false /\
  prev_open_hand_y (fst (step self f)) = None /\
  snd (step self f) = NoCommand.
Proof.
  unfold frame_positions, step, recognize_gesture.
  destruct (multi_hand_landmarks f) as [[|lm rest]|]; try discriminate;
    intros _; repeat split.
Qed.

(** X11. A pinch in the frame is handled by the pinch block whenever a pinch is
    in progress or the click cooldown is over. *)
Lemma pinch_first_outside_cooldown self (f : Frame F) :
  frame_pose f = Some Pinch ->
  is_pinching self = true \/
  (clock f - last_click_time self >? config.CLICK_COOLDOWN) = true ->
  type (snd (step self f)) = left_press \/
  type (snd (step self f)) = left_hold \/
  type (snd (step self f)) = pinch_drag.
Proof.
  intros Hf Hc.
  destruct (is_pinching self) eqn:Hp.
  - rewrite (step_held self f Hp Hf). cbn [snd]. unfold held_pinch_command.
    destruct (clock f - pinch_start_time self >? lit 1.0); cbn; auto.
  - destruct Hc as [Hc|Hc]; [discriminate|].
    rewrite (step_press self f Hp Hf Hc). cbn. auto.
Qed.

End FlagFacts.

(** ** C7: when the smoothing is reset *)

Section SmoothingReset.
Context {F : Type} `{PyFloat F}.
Local Open Scope py_scope.

(** With no previous value the pointer goes to the freshly mapped position. *)
Lemma move_mouse_unsmoothed (self : MouseController F) hand_x hand_y fw fh :
  prev_mouse_x self = None \/ prev_mouse_y self = None ->
  snd (move_mouse self hand_x hand_y fw fh) =
  [moveTo (fst (map_coordinates self hand_x hand_y fw fh))
          (snd (map_coordinates self hand_x hand_y fw fh))].
Proof.
  intros Hprev. unfold move_mouse.
  destruct (map_coordinates self hand_x hand_y fw fh) as [sx sy].
  unfold smooth_coordinates.
  destruct Hprev as [-> | ->]; [|destruct (prev_mouse_x self)]; reflexivity.
Qed.

(** The result of an iteration is the recognised gesture, and the
    controller is reset or driven according to its type. *)
Lemma main_iteration_parts (gd : GestureDetector F) (mc : MouseController F)
    (f : Frame F) :
  snd (fst (main_iteration gd mc f)) = snd (step gd f) /\
  snd (fst (fst (main_iteration gd mc f))) =
    if is_none (type (snd (step gd f))) then reset_smoothing mc
    else fst (execute_gesture mc (snd (step gd f))
                config.FRAME_WIDTH config.FRAME_HEIGHT).
Proof.
  unfold main_iteration, step.
  destruct (recognize_gesture gd (multi_hand_landmarks f) (shape f) (clock f))
    as [gd' r]. cbn [snd].
  destruct (is_none (type r)); cbn [negb]; [auto|].
  destruct (execute_gesture mc r config.FRAME_WIDTH config.FRAME_HEIGHT). auto.
Qed.

(** C7, as the code has it. After every iteration of the frame loop whose
    result is of type none (which includes every frame without a hand) the
    previous smoothed coordinates are cleared, and the next pointer move
    goes to the freshly mapped position; after an iteration that answers
    LeftPress, LeftHold, LeftRelease, RightClick or Scroll the previous
    smoothed coordinates are left as they were. *)
Theorem smoothing_reset_only_on_none :
  forall (gesture_detector : GestureDetector F)
         (mouse_controller : MouseController F) (f : Frame F),
    let out := main_iteration gesture_detector mouse_controller f in
    let mouse_controller' := snd (fst (fst out)) in
    let r := snd (fst out) in
    (frame_positions f = None -> type r = none) /\
    (type r = none ->
     prev_mouse_x mouse_controller' = None /\
     prev_mouse_y mouse_controller' = None /\
     forall hand_x hand_y fw fh,
       snd (move_mouse mouse_controller' hand_x hand_y fw fh) =
       [moveTo (fst (map_coordinates mouse_controller' hand_x hand_y fw fh))
               (snd (map_coordinates mouse_controller' hand_x hand_y fw fh))]) /\
    (type r = left_press \/ type r = left_hold \/ type r = left_release \/
     type r = right_click \/ type r = scroll ->
     prev_mouse_x mouse_controller' = prev_mouse_x mouse_controller /\
     prev_mouse_y mouse_controller' = prev_mouse_y mouse_controller).
Proof.
  intros gd mc f out mc' r. subst mc' r out.
  destruct (main_iteration_parts gd mc f) as [-> ->].
  split; [|split].
  - intros Hf. destruct (step_no_hand gd f Hf) as (_ & _ & _ & ->). reflexivity.
  - destruct (snd (step gd f)) as [ty d]. cbn [type].
    intros ->. cbn [is_none]. split; [reflexivity|split; [reflexivity|]].
    intros. apply move_mouse_unsmoothed. now left.
  - destruct (snd (step gd f)) as [ty d]. cbn [type].
    intros [E|[E|[E|[E|E]]]]; subst ty; cbn [is_none];
      destruct d as [|[]|]; cbn; auto.
Qed.

End SmoothingReset.

(** ** C9: repeated moves with one hand position *)

(** Any reading [R] of "the float [v] stands for the integer [c]" that holds
    after the conversion of an admissible integer and is kept by the
    smoothing step, which then truncates to [c], makes repeated moves with
    one hand position repeat one target. *)
Section SmoothingFixedPoint.
Context {F : Type} `{PyFloat F}.
Variable admissible : Z -> Prop.
Variable R : F -> Z -> Prop.
Hypothesis R_of_int : forall c, admissible c -> R (of_int c) c.
Hypothesis R_smooth_step :
  forall v c, R v c -> R (smooth_step v c) c /\ to_int (smooth_step v c) = c.

Lemma smooth_coordinates_first (self : MouseController F) (sx sy : Z) :
  prev_mouse_x self = None \/ prev_mouse_y self = None ->
  admissible sx -> admissible sy ->
  snd (smooth_coordinates self sx sy) = (sx, sy) /\
  anchored R (fst (smooth_coordinates self sx sy)) sx sy.
Proof.
  intros Hprev Hx Hy. unfold smooth_coordinates.
  assert (E : match prev_mouse_x self, prev_mouse_y self with
              | Some _, Some _ => False | _, _ => True end).
  { destruct Hprev as [-> | ->]; [|destruct (prev_mouse_x self)]; exact I. }
  destruct (prev_mouse_x self), (prev_mouse_y self); try contradiction;
    (split; [reflexivity|]);
    exists (of_int sx), (of_int sy); repeat split; auto.
Qed.

Lemma smooth_coordinates_anchored (self : MouseController F) (sx sy : Z) :
  anchored R self sx sy ->
  snd (smooth_coordinates self sx sy) = (sx, sy) /\
  anchored R (fst (smooth_coordinates self sx sy)) sx sy.
Proof.
  intros (px & py & Ex & Ey & Hx & Hy). unfold smooth_coordinates.
  rewrite Ex, Ey. cbn [fst snd].
  destruct (R_smooth_step px sx Hx) as [Rx Tx].
  destruct (R_smooth_step py sy Hy) as [Ry Ty].
  split.
  - f_equal; assumption.
  - eexists _, _. repeat split; assumption.
Qed.

Lemma smooth_coordinates_keeps_screen (self : MouseController F) sx sy hx hy fw fh :
  map_coordinates (fst (smooth_coordinates self sx sy)) hx hy fw fh =
  map_coordinates self hx hy fw fh.
Proof.
  unfold smooth_coordinates.
  destruct (prev_mouse_x self), (prev_mouse_y self); reflexivity.
Qed.

Lemma repeat_move_anchored (n : nat) :
  forall (self : MouseController F) hx hy fw fh sx sy,
    map_coordinates self hx hy fw fh = (sx, sy) ->
    anchored R self sx sy ->
    repeat_move n self hx hy fw fh = repeat [moveTo sx sy] n.
Proof.
  induction n as [|n IH]; intros self hx hy fw fh sx sy Hmap Hanch; [reflexivity|].
  cbn [repeat_move repeat]. unfold move_mouse. rewrite Hmap.
  destruct (smooth_coordinates_anchored self sx sy Hanch) as [Eout Hanch'].
  pose proof (smooth_coordinates_keeps_screen self sx sy hx hy fw fh) as Hscr.
  destruct (smooth_coordinates self sx sy) as [self' [ox oy]].
  cbn [fst snd] in *. injection Eout as -> ->.
  f_equal. apply IH; [now rewrite Hscr|assumption].
Qed.

Lemma repeat_move_from_reset (self : MouseController F) hx hy fw fh (n : nat) :
  prev_mouse_x self = None \/ prev_mouse_y self = None ->
  admissible (fst (map_coordinates self hx hy fw fh)) ->
  admissible (snd (map_coordinates self hx hy fw fh)) ->
  repeat_move (S n) self hx hy fw fh =
  repeat [moveTo (fst (map_coordinates self hx hy fw fh))
                 (snd (map_coordinates self hx hy fw fh))] (S n).
Proof.
  intros Hprev.
  destruct (map_coordinates self hx hy fw fh) as [sx sy] eqn:Hmap.
  cbn [repeat_move repeat fst snd]. intros Hx Hy.
  unfold move_mouse. rewrite Hmap.
  destruct (smooth_coordinates_first self sx sy Hprev Hx Hy) as [Eout Hanch].
  pose proof (smooth_coordinates_keeps_screen self sx sy hx hy fw fh) as Hscr.
  destruct (smooth_coordinates self sx sy) as [self' [ox oy]].
  cbn [fst snd] in *. injection Eout as -> ->.
  f_equal. apply repeat_move_anchored; [now rewrite Hscr|assumption].
Qed.

End SmoothingFixedPoint.

Section MoveIdempotence.
Local Open Scope Q_scope.

Lemma Qtrunc_inject_Z (q : Q) (n : Z) : q == inject_Z n -> Qtrunc q = n.
Proof.
  destruct q as [a b]. unfold Qeq, Qtrunc. cbn [Qnum Qden inject_Z].
  rewrite Z.mul_1_r. intros ->. apply Z.quot_mul. discriminate.
Qed.

(** A value equal to the sample is a fixed point of the smoothing formula,
    whatever the factor. *)
Lemma smoothing_fixed_point (factor prev : Q) (n : Z) :
  prev == inject_Z n ->
  factor * prev + (inject_Z 1 - factor) * inject_Z n == inject_Z n.
Proof. intros ->. ring. Qed.

Lemma exact_smooth_step (v : Q) (c : Z) :
  v == inject_Z c ->
  smooth_step v c == inject_Z c /\ to_int (smooth_step v c) = c.
Proof.
  intros Hv.
  pose proof (smoothing_fixed_point config.SMOOTH_FACTOR v c Hv) as E.
  split; [exact E|]. apply Qtrunc_inject_Z. exact E.
Qed.

(** In exact arithmetic, on a screen of any size: a mouse controller with no
    previous smoothed value, driven any number of times with one hand
    position, sends the pointer every time to the freshly mapped position. *)
Lemma move_idempotent_exact :
  forall (self : MouseController Q) (hand_x hand_y : Q)
         (frame_width frame_height : Z) (n : nat),
    prev_mouse_x self = None \/ prev_mouse_y self = None ->
    let target := map_coordinates self hand_x hand_y frame_width frame_height in
    repeat_move (S n) self hand_x hand_y frame_width frame_height =
    repeat [moveTo (fst target) (snd target)] (S n).
Proof.
  intros self hx hy fw fh n Hprev target. subst target.
  apply (repeat_move_from_reset (fun _ => True) (fun v c => v == inject_Z c));
    auto.
  - intros c _. reflexivity.
  - exact exact_smooth_step.
Qed.

End MoveIdempotence.

(** *** On IEEE-754 doubles, for pointer coordinates below 32768 *)

Lemma all_from_spec (P : Z -> bool) (n : nat) :
  forall c0, all_from n c0 P = true ->
  forall c, (c0 <= c < c0 + Z.of_nat n)%Z -> P c = true.
Proof.
  induction n as [|n IH]; cbn [all_from]; intros c0 E c Hc; [lia|].
  apply andb_true_iff in E as [E1 E2].
  destruct (Z.eq_dec c c0) as [->|Hne]; [exact E1|].
  apply (IH (c0 + 1)%Z); [exact E2|lia].
Qed.

Lemma pointer_range_fixed :
  all_from (Z.to_nat 32768) 0 fixed_on_binary64 = true.
Proof. vm_compute. reflexivity. Qed.

Lemma binary64_of_int_fixed (c : Z) :
  (0 <= c < 32768)%Z ->
  smooth_step (of_int c) c = (of_int c : PrimFloat.float) /\
  to_int (of_int c : PrimFloat.float) = c.
Proof.
  intros Hc.
  assert (E : fixed_on_binary64 c = true).
  { apply (all_from_spec _ _ 0%Z pointer_range_fixed).
    rewrite Z2Nat.id; lia. }
  unfold fixed_on_binary64 in E. apply andb_true_iff in E as [E1 E2].
  split.
  - now apply FloatAxioms.Leibniz.eqb_spec.
  - now apply Z.eqb_eq.
Qed.

(** X17. On doubles, with the configured smoothing factor: a mouse controller
    with no previous smoothed value, driven any number of times with one
    hand position whose mapped target lies below 32768 on both axes, sends
    the pointer every time to that target. *)
Theorem move_idempotent_binary64 :
  forall (self : MouseController PrimFloat.float) (hand_x hand_y : PrimFloat.float)
         (frame_width frame_height : Z) (n : nat),
    prev_mouse_x self = None \/ prev_mouse_y self = None ->
    let target := map_coordinates self hand_x hand_y frame_width frame_height in
    (0 <= fst target < 32768)%Z -> (0 <= snd target < 32768)%Z ->
    repeat_move (S n) self hand_x hand_y frame_width frame_height =
    repeat [moveTo (fst target) (snd target)] (S n).
Proof.
  intros self hx hy fw fh n Hprev target Hx Hy. subst target.
  apply (repeat_move_from_reset (fun c => (0 <= c < 32768)%Z)
           (fun v c => v = of_int c /\ (0 <= c < 32768)%Z)); auto.
  intros v c [-> Hc]. destruct (binary64_of_int_fixed c Hc) as [E1 E2].
  rewrite E1. auto.
Qed.

(** *** The clamped target on doubles *)

Lemma pointer_range_normal :
  all_from (Z.to_nat 32768) 0 normal_on_binary64 = true.
Proof. vm_compute. reflexivity. Qed.

Lemma digits2_pos_bound (m : positive) :
  (Zpos m < 2 ^ Zpos (SpecFloat.digits2_pos m))%Z.
Proof.
  induction m as [m IH|m IH|]; cbn [SpecFloat.digits2_pos].
  - rewrite Pos2Z.inj_succ, Z.pow_succ_r by lia. lia.
  - rewrite Pos2Z.inj_succ, Z.pow_succ_r by lia. lia.
  - reflexivity.
Qed.

(** The mantissa of a double has at most 53 bits. *)
Lemma valid_mantissa_bound (s : bool) (m : positive) (e : Z) :
  SpecFloat.valid_binary FloatOps.prec FloatOps.emax
    (SpecFloat.S754_finite s m e) = true ->
  (Zpos m < 2 ^ 53)%Z.
Proof.
  cbn [SpecFloat.valid_binary].
  unfold SpecFloat.bounded, SpecFloat.canonical_mantissa.
  intros E. apply andb_true_iff in E as [E _]. apply Z.eqb_eq in E.
  unfold SpecFloat.fexp in E. change FloatOps.prec with 53%Z in E.
  pose proof (digits2_pos_bound m) as B.
  assert (D : (Zpos (SpecFloat.digits2_pos m) <= 53)%Z) by lia.
  eapply Z.lt_le_trans; [exact B|]. apply Z.pow_le_mono_r; lia.
Qed.

(** A double strictly between zero and the conversion of [c] truncates to
    an integer between 0 and [c]. *)
Lemma binary64_between (c : Z) (v : PrimFloat.float) :
  (0 <= c < 32768)%Z ->
  PrimFloat.ltb (of_int 0) v = true ->
  PrimFloat.ltb v (of_int c) = true ->
  (0 <= to_int v <= c)%Z.
Proof.
  intros Hc H0 H1.
  assert (N : normal_on_binary64 c = true).
  { apply (all_from_spec _ _ 0%Z pointer_range_normal). rewrite Z2Nat.id; lia. }
  rewrite FloatAxioms.ltb_spec in H0, H1.
  pose proof (FloatAxioms.Prim2SF_valid v) as V.
  unfold normal_on_binary64 in N.
  cbn [to_int binary64]. unfold float2Z.
  change (FloatOps.Prim2SF (of_int 0)) with (SpecFloat.S754_zero false) in H0.
  destruct (FloatOps.Prim2SF v) as [sv|sv| |sv m e]; try discriminate H0.
  - destruct sv; try discriminate H0.
    destruct (FloatOps.Prim2SF (of_int c)) as [s|s| |s mc ec]; try discriminate N;
      destruct s; discriminate.
  - destruct sv; [discriminate H0|].
    apply valid_mantissa_bound in V.
    destruct (FloatOps.Prim2SF (of_int c)) as [s|s| |s mc ec]; try discriminate N.
    + destruct s; discriminate.
    + destruct s; [discriminate N|].
      apply andb_true_iff in N as [N N3]. apply andb_true_iff in N as [N1 N2].
      apply Z.ltb_lt in N1. apply Z.leb_le in N2. apply Z.eqb_eq in N3.
      unfold SpecFloat.SFltb, SpecFloat.SFcompare in H1.
      assert (P : (0 < 2 ^ (- ec))%Z) by (apply Z.pow_pos_nonneg; lia).
      destruct (Z.compare_spec e ec) as [->|Hlt|Hgt]; try discriminate H1.
      * rewrite Pos.compare_cont_spec in H1. cbn [Pos.switch_Eq] in H1.
        destruct (Pos.compare_spec m mc) as [|Hm|]; try discriminate H1.
        rewrite Z.shiftl_div_pow2 by lia.
        split; [apply Z.div_pos; lia|].
        apply Z.div_le_upper_bound; [lia|]. nia.
      * rewrite Z.shiftl_div_pow2 by lia.
        assert (P' : (0 < 2 ^ (- e))%Z) by (apply Z.pow_pos_nonneg; lia).
        split; [apply Z.div_pos; lia|].
        apply Z.div_le_upper_bound; [lia|].
        assert (E2 : (2 ^ (- e) = 2 ^ (- ec) * 2 ^ (ec - e))%Z).
        { rewrite <- Z.pow_add_r by lia. f_equal. lia. }
        assert (G : (2 <= 2 ^ (ec - e))%Z).
        { change 2%Z with (2 ^ 1)%Z at 1. apply Z.pow_le_mono_r; lia. }
        rewrite E2. nia.
Qed.

(** Whatever double is clamped, a NaN or an infinity included, the integer
    taken from it lies on the screen. *)
Lemma clamp_to_screen_binary64 (size : Z) (v : PrimFloat.float) :
  (1 <= size <= 32768)%Z ->
  (0 <= to_int (clamp_to_screen size v) <= size - 1)%Z.
Proof.
  intros Hs.
  assert (E0 : to_int (of_int 0 : PrimFloat.float) = 0%Z) by reflexivity.
  assert (E1 : to_int (of_int (size - 1) : PrimFloat.float) = (size - 1)%Z).
  { apply binary64_of_int_fixed. lia. }
  unfold clamp_to_screen, py_max, py_min. cbn [flt binary64].
  destruct (PrimFloat.ltb v (of_int (size - 1))) eqn:L1.
  - destruct (PrimFloat.ltb (of_int 0) v) eqn:L0.
    + apply binary64_between; [lia|assumption|assumption].
    + rewrite E0. lia.
  - destruct (PrimFloat.ltb (of_int 0) (of_int (size - 1))).
    + rewrite E1. lia.
    + rewrite E0. lia.
Qed.

Lemma map_coordinates_binary64_range (self : MouseController PrimFloat.float)
    (hand_x hand_y : PrimFloat.float) (frame_width frame_height : Z) :
  (1 <= screen_width self <= 32768)%Z ->
  (1 <= screen_height self <= 32768)%Z ->
  (0 <= fst (map_coordinates self hand_x hand_y frame_width frame_height)
     <= screen_width self - 1)%Z /\
  (0 <= snd (map_coordinates self hand_x hand_y frame_width frame_height)
     <= screen_height self - 1)%Z.
Proof.
  intros Hw Hh. unfold map_coordinates. cbn [fst snd].
  split; [apply (clamp_to_screen_binary64 _ _ Hw)
         |apply (clamp_to_screen_binary64 _ _ Hh)].
Qed.

(** C9. On the program's doubles, with the configured smoothing factor, for
    every hand position (a NaN or an infinity included), every non-zero
    frame size and every screen of at most 32768 by 32768 pixels: a mouse
    controller with no previous smoothed value, driven any number of times
    with that one position, sends the pointer every time to the same integer
    target, which is the freshly mapped position that the first call
    answers unsmoothed. *)
Theorem move_idempotent :
  forall (self : MouseController PrimFloat.float) (hand_x hand_y : PrimFloat.float)
         (frame_width frame_height : Z) (n : nat),
    prev_mouse_x self = None \/ prev_mouse_y self = None ->
    (1 <= screen_width self <= 32768)%Z ->
    (1 <= screen_height self <= 32768)%Z ->
    frame_width <> 0%Z -> frame_height <> 0%Z ->
    let target := map_coordinates self hand_x hand_y frame_width frame_height in
    repeat_move (S n) self hand_x hand_y frame_width frame_height =
    repeat [moveTo (fst target) (snd target)] (S n).
Proof.
  intros self hx hy fw fh n Hprev Hw Hh _ _ target. subst target.
  destruct (map_coordinates_binary64_range self hx hy fw fh Hw Hh) as [Rx Ry].
  apply (repeat_move_from_reset (fun c => (0 <= c < 32768)%Z)
           (fun v c => v = of_int c /\ (0 <= c < 32768)%Z)); auto; try lia.
  intros v c [-> Hc]. destruct (binary64_of_int_fixed c Hc) as [E1 E2].
  rewrite E1. auto.
Qed.

(** ** Runs on IEEE-754 doubles *)

Section Binary64Runs.
Local Open Scope py_scope.

(** A press, two held frames (0.5 s and 1.5 s after the press) and a
    release, by [pinch_lifecycle]. *)
Lemma pinch_lifecycle_witness :
  let f0 : Frame PrimFloat.float := frame_at 100 pinch_hand in
  let held : list (Frame PrimFloat.float) :=
    [frame_at 100.5 pinch_hand; frame_at 101.5 pinch_hand] in
  let fr : Frame PrimFloat.float := frame_at 102 relaxed_hand in
  snd (step fresh_detector f0) = LeftPress /\
  is_pinching (fst (step fresh_detector f0)) = true /\
  pinch_start_time (fst (step fresh_detector f0)) = clock f0 /\
  snd (run fresh_detector (f0 :: held ++ [fr])) =
    LeftPress :: map (held_pinch_command (clock f0)) held ++ [LeftRelease] /\
  is_pinching (fst (run fresh_detector (f0 :: held ++ [fr]))) = false.
Proof.
  intros f0 held fr.
  apply (pinch_lifecycle fresh_detector f0 held fr Idle).
  - reflexivity.
  - vm_compute; reflexivity.
  - vm_compute; reflexivity.
  - repeat constructor; vm_compute; reflexivity.
  - vm_compute; reflexivity.
  - discriminate.
Defined.

(** The commands of that run, spelled out. *)
Example pinch_lifecycle_run :
  snd (run fresh_detector [frame_at 100 pinch_hand; frame_at 100.5 pinch_hand;
                 frame_at 101.5 pinch_hand; frame_at 102 relaxed_hand]) =
  [LeftPress; LeftHold; Drag (lit 320, lit 255); LeftRelease].
Proof. vm_compute. reflexivity. Qed.

(** C2 at a failing input. A pinch is pressed at 100 s and released at
    100.0625 s; at 100.125 s, inside the click cooldown, the hand is both a
    pinch and a fist. The frame is not handled by the pinch block: it
    answers [RightClick]. *)
Theorem pinch_in_click_cooldown_answers_right_click :
  let both : Frame PrimFloat.float := frame_at 100.125 pinch_fist_hand in
  frame_pose both = Some Pinch /\
  option_map detect_fist (frame_positions both) = Some true /\
  snd (run fresh_detector [frame_at 100 pinch_hand; frame_at 100.0625 relaxed_hand; both]) =
  [LeftPress; LeftRelease; RightClick].
Proof. vm_compute. repeat split. Qed.

(** C3 at a failing input. A pinch is pressed and the hand then leaves the
    picture: the frame without a hand clears [is_pinching] and answers
    nothing, so no [LeftRelease] matches the [LeftPress]. *)
Theorem hand_lost_during_pinch_answers_no_release :
  let press : Frame PrimFloat.float := frame_at 100 pinch_hand in
  let lost : Frame PrimFloat.float := empty_frame 100.0625 in
  is_pinching (fst (step fresh_detector press)) = true /\
  snd (run fresh_detector [press; lost]) = [LeftPress; NoCommand] /\
  is_pinching (fst (run fresh_detector [press; lost])) = false.
Proof. vm_compute. repeat split. Qed.

(** C6 at a failing input. An open hand records the palm height 180; the
    next frame shows a fist, and the reference is still there after it. *)
Theorem reference_survives_leaving_open_hand :
  let opened : Frame PrimFloat.float := frame_at 100 open_hand_high in
  let closed : Frame PrimFloat.float := frame_at 100.5 fist_hand in
  frame_pose opened = Some OpenHand /\
  frame_pose closed = Some Fist /\
  prev_open_hand_y (fst (run fresh_detector [opened; closed])) = Some (lit 180) /\
  prev_open_hand_y (fst (run fresh_detector [opened; closed])) <> None.
Proof. vm_compute. repeat split. discriminate. Qed.

(** C10 at a failing input. An open hand, then an index-only hand, then an
    open hand lower in the picture: the third frame answers a scroll though
    the frame before it is not an open hand. *)
Theorem scroll_without_consecutive_open_hands :
  let frames : list (Frame PrimFloat.float) :=
    [frame_at 100 open_hand_high; frame_at 100.5 index_hand;
     frame_at 101 open_hand_low] in
  map frame_pose frames = [Some OpenHand; Some IndexOnly; Some OpenHand] /\
  snd (run fresh_detector frames) = [NoCommand; Move (lit 320, lit 120); Scroll up].
Proof. vm_compute. repeat split. Qed.

(** C4 refuted as stated. The reference palm height is 360 and the palm is
    now at 180: the displacement 180 exceeds the threshold and is positive,
    the scroll cooldown is over, and the answer is [Scroll down], not
    [Scroll up]. *)
Lemma scroll_up_for_positive_delta_refuted :
  let self := fst (step fresh_detector (frame_at 100 open_hand_low)) in
  let f : Frame PrimFloat.float := frame_at 100.5 open_hand_high in
  let p := get_finger_tip_positions open_hand_high in
  let delta := swipe_delta (lit 360) p 480 in
  frame_pose f = Some OpenHand /\
  prev_open_hand_y self = Some (lit 360) /\
  (clock f - last_scroll_time self >? config.SCROLL_COOLDOWN) = true /\
  (delta >? swipe_threshold 480) = true /\
  (delta >? of_int 0) = true /\
  snd (step self f) = Scroll down /\
  snd (step self f) <> Scroll up.
Proof. vm_compute. repeat split. discriminate. Qed.

(** The same frame, by [scroll_direction_inverted]. *)
Lemma scroll_direction_inverted_witness :
  let self := fst (step fresh_detector (frame_at 100 open_hand_low)) in
  let f : Frame PrimFloat.float := frame_at 100.5 open_hand_high in
  snd (step self f) = Scroll down.
Proof.
  intros self f.
  refine (proj1 (scroll_direction_inverted self f
                   (get_finger_tip_positions open_hand_high) (lit 360)
                   _ _ _ _ _) _);
    vm_compute; reflexivity.
Defined.

(** C5 refuted as stated. After a scroll at 100.5 s the reference is 180;
    at 100.53125 s, inside the scroll cooldown, the palm is at 360: the
    frame answers nothing, and yet the reference has moved to 360. *)
Lemma reference_moves_without_scroll :
  let self :=
    fst (run fresh_detector [frame_at 100 open_hand_low; frame_at 100.5 open_hand_high]) in
  let f : Frame PrimFloat.float := frame_at 100.53125 open_hand_low in
  frame_pose f = Some OpenHand /\
  prev_open_hand_y self = Some (lit 180) /\
  (clock f - last_scroll_time self >? config.SCROLL_COOLDOWN) = false /\
  snd (step self f) = NoCommand /\
  prev_open_hand_y (fst (step self f)) = Some (lit 360) /\
  prev_open_hand_y (fst (step self f)) <> prev_open_hand_y self.
Proof.
  vm_compute. repeat split.
  intros E.
  apply (f_equal (fun o => match o with
                           | Some v => PrimFloat.ltb v (lit 200)
                           | None => false
                           end)) in E.
  vm_compute in E. discriminate E.
Qed.

(** The same frame, by [swipe_reference_update]. *)
Lemma swipe_reference_update_witness :
  let self :=
    fst (run fresh_detector [frame_at 100 open_hand_low; frame_at 100.5 open_hand_high]) in
  let f : Frame PrimFloat.float := frame_at 100.53125 open_hand_low in
  prev_open_hand_y (fst (step self f)) = Some (lit 360).
Proof.
  intros self f.
  refine (proj1 (proj2 (swipe_reference_update self f
                          (get_finger_tip_positions open_hand_low) (lit 180)
                          _ _ _ _)) _);
    vm_compute; reflexivity.
Defined.

(** C7 refuted as stated. On a 1920x1080 screen an index-only hand moves
    the pointer to (960, 295), and the next frame answers [LeftPress]: the
    previous smoothed coordinates are still stored after it. *)
Lemma smoothing_kept_after_left_press :
  let out :=
    main_loop fresh_detector (MouseController_init (1920, 1080)%Z)
      [frame_at 100 index_hand; frame_at 100.5 pinch_hand] in
  snd out = [Move (lit 320, lit 120); LeftPress] /\
  prev_mouse_x (snd (fst out)) = Some (lit 960) /\
  prev_mouse_y (snd (fst out)) = Some (lit 295) /\
  prev_mouse_x (snd (fst out)) <> None.
Proof. vm_compute. repeat split. discriminate. Qed.

End Binary64Runs.

(** A fresh controller on a 1920x1080 screen driven four times with the
    centre of a 640x480 frame, on doubles. *)
Lemma move_idempotent_binary64_witness :
  repeat_move 4 (MouseController_init (F := PrimFloat.float) (1920, 1080)%Z)
    (lit 320) (lit 240) 640 480 =
  repeat [moveTo 960 540] 4.
Proof.
  pose proof (move_idempotent_binary64 (MouseController_init (1920, 1080)%Z)
                (lit 320) (lit 240) 640 480 3 (or_introl eq_refl)) as P.
  cbv zeta in P.
  assert (Hx : (0 <= 960 < 32768)%Z) by lia.
  assert (Hy : (0 <= 540 < 32768)%Z) by lia.
  specialize (P Hx Hy). exact P.
Defined.

(** The same in exact arithmetic, by [move_idempotent_exact]. *)
Example move_idempotent_exact_run :
  repeat_move 4 (MouseController_init (F := Q) (1920, 1080)%Z) 320 240 640 480 =
  repeat [moveTo 960 540] 4.
Proof.
  apply (move_idempotent_exact (MouseController_init (1920, 1080)%Z) 320 240 640 480 3).
  left. reflexivity.
Qed.

(** A fresh controller on a 1920x1080 screen driven four times with the
    centre of a 640x480 frame, by [move_idempotent]. *)
Lemma move_idempotent_witness :
  repeat_move 4 (MouseController_init (F := PrimFloat.float) (1920, 1080)%Z)
    (lit 320) (lit 240) 640 480 =
  repeat [moveTo 960 540] 4.
Proof.
  pose proof (move_idempotent (MouseController_init (1920, 1080)%Z)
                (lit 320) (lit 240) 640 480 3 (or_introl eq_refl)) as P.
  cbv zeta in P.
  assert (Hw : (1 <= 1920 <= 32768)%Z) by lia.
  assert (Hh : (1 <= 1080 <= 32768)%Z) by lia.
  assert (Hfw : 640%Z <> 0%Z) by discriminate.
  assert (Hfh : 480%Z <> 0%Z) by discriminate.
  specialize (P Hw Hh Hfw Hfh). exact P.
Defined.

(** * Further properties of the detector *)

(** Case analysis over the paths of the decision chain, the property at
    hand being kept folded meanwhile. *)
Ltac chain_cases :=
  match goal with
  | |- context [returned ?out] => pattern (returned out)
  end;
  match goal with
  | |- ?P _ =>
      let Q := fresh "Q" in
      set (Q := P);
      unfold decision_chain, first_pass, seq, pinch_block, fist_block,
        index_block, thumb_index_open_block, open_hand_block,
        detect_open_hand_swipe, idle_block;
      repeat (cbn [negb andb truthy fst snd returned];
              match goal with
              | |- context [if ?b then _ else _] => destruct b eqn:?
              | |- context [match ?o with Some _ => _ | None => _ end] =>
                  destruct o eqn:?
              end);
      subst Q; cbn
  end.

Section DetectorFacts.
Context {F : Type} `{PyFloat F}.
Local Open Scope py_scope.

(** Every frame is either without a hand or runs the decision chain on the
    fingertips of its first hand. *)
Lemma step_chain self (f : Frame F) :
  (frame_positions f = None /\ step self f = no_hand self) \/
  (exists p, frame_positions f = Some p /\
     step self f =
     returned (decision_chain p (snd (shape f)) (fst (shape f)) (clock f) self)).
Proof.
  destruct (frame_positions f) as [p|] eqn:E.
  - right. exists p. split; [reflexivity|].
    rewrite (step_hand self f p E). now rewrite hand_body_decision_chain.
  - left. split; [reflexivity|]. now apply step_no_hand.
Qed.

Lemma step_data_shape (self : GestureDetector F) (f : Frame F) :
  match type (snd (step self f)) with
  | move | pinch_drag => data (snd (step self f)) = Pos (frame_index_position f)
  | scroll => exists d, data (snd (step self f)) = Dir d
  | _ => data (snd (step self f)) = NoData
  end.
Proof.
  unfold frame_index_position.
  destruct (step_chain self f) as [(E & ->)|(p & E & ->)]; rewrite E.
  - reflexivity.
  - chain_cases; eauto.
Qed.

(** X1. The data of a result has the shape its type promises: for a move
    and a drag the index fingertip of the frame in pixels, which
    [frame_index_position] spells out as the landmark's [x] times the frame
    width and its [y] times the frame height; a direction for a scroll;
    nothing otherwise. *)
Theorem result_data_shape :
  forall (self : GestureDetector F) (f : Frame F),
    match type (snd (step self f)) with
    | move | pinch_drag => data (snd (step self f)) = Pos (frame_index_position f)
    | scroll => exists d, data (snd (step self f)) = Dir d
    | _ => data (snd (step self f)) = NoData
    end.
Proof. exact step_data_shape. Qed.

(** X2. The text kept for [get_current_gesture_text] always names the result of
    the frame just processed. *)
Theorem gesture_text_names_result :
  forall (self : GestureDetector F) (f : Frame F),
    In (get_current_gesture_text (fst (step self f))) (texts_of (snd (step self f))).
Proof.
  intros self f. unfold get_current_gesture_text, texts_of.
  destruct (step_chain self f) as [(E & ->)|(p & E & ->)].
  - cbn. auto.
  - chain_cases; auto 6.
Qed.

(** X3. Each timer is written only by its own command, and then with the clock
    of the frame: [last_click_time] and [pinch_start_time] by a press,
    [last_right_click_time] by a right click, [last_scroll_time] by a
    scroll. [prev_index_pos] is never written. *)
Theorem timers_follow_their_commands :
  forall (self : GestureDetector F) (f : Frame F),
    let self' := fst (step self f) in
    let ty := type (snd (step self f)) in
    (if is_left_press ty
     then last_click_time self' = clock f /\ pinch_start_time self' = clock f
     else last_click_time self' = last_click_time self /\
          pinch_start_time self' = pinch_start_time self) /\
    (if is_right_click ty
     then last_right_click_time self' = clock f
     else last_right_click_time self' = last_right_click_time self) /\
    (if is_scroll ty
     then last_scroll_time self' = clock f
     else last_scroll_time self' = last_scroll_time self) /\
    prev_index_pos self' = prev_index_pos self.
Proof.
  intros self f self' ty. subst self' ty.
  destruct (step_chain self f) as [(E & ->)|(p & E & ->)].
  - cbn. auto.
  - chain_cases; repeat split; reflexivity.
Qed.


(** *** The poses outside a pinch *)

Lemma pose_cases (p : positions F) :
  match pose p with
  | Pinch => detect_pinch p = true
  | Fist => detect_pinch p = false /\ detect_fist p = true
  | IndexOnly =>
      detect_pinch p = false /\ detect_fist p = false /\
      detect_only_index_up p = true
  | ThumbIndexOpen =>
      detect_pinch p = false /\ detect_fist p = false /\
      detect_only_index_up p = false /\ detect_thumb_index_open p = true
  | OpenHand =>
      detect_pinch p = false /\ detect_fist p = false /\
      detect_only_index_up p = false /\ detect_thumb_index_open p = false /\
      detect_open_hand p = true
  | Idle =>
      detect_pinch p = false /\ detect_fist p = false /\
      detect_only_index_up p = false /\ detect_thumb_index_open p = false /\
      detect_open_hand p = false
  end.
Proof.
  unfold pose.
  destruct (detect_pinch p), (detect_fist p), (detect_only_index_up p),
    (detect_thumb_index_open p), (detect_open_hand p); auto 6.
Qed.

(** With no pinch in progress and no pinch in the frame, the body is what
    the four blocks after the pinch block and the idle block answer. *)
Lemma chain_without_pinch (p : positions F) fw fh t self :
  is_pinching self = false -> detect_pinch p = false ->
  decision_chain p fw fh t self =
  seq (fist_block p t)
    (seq (index_block p fw fh)
       (seq (thumb_index_open_block p)
          (seq (open_hand_block p fh t) idle_block))) self.
Proof.
  intros Hp Hd. unfold decision_chain, first_pass.
  unfold seq at 1 2.
  rewrite (pinch_block_fall_through p fw fh t self Hp (or_introl Hd)).
  unfold seq.
  destruct (fist_block p t self) as [s1 [r1|]]; [reflexivity|].
  destruct (index_block p fw fh s1) as [s2 [r2|]]; [reflexivity|].
  destruct (thumb_index_open_block p s2) as [s3 [r3|]]; [reflexivity|].
  destruct (open_hand_block p fh t s3) as [s4 [r4|]]; reflexivity.
Qed.

Lemma pose_table_fist self (f : Frame F) (p : positions F) :
  frame_positions f = Some p -> is_pinching self = false -> pose p = Fist ->
  step self f =
  if clock f - last_right_click_time self >? config.CLICK_COOLDOWN
  then (set_last_right_click_time (clock f)
          (set_current_gesture "Fist (Right Click)" self), RightClick)
  else (set_current_gesture "Fist (Cooldown)" self, NoCommand).
Proof.
  intros Hf Hp Hpose.
  pose proof (pose_cases p) as C. rewrite Hpose in C. destruct C as (Hd & C1).
  rewrite (step_hand self f p Hf), hand_body_decision_chain.
  rewrite (chain_without_pinch p _ _ _ self Hp Hd).
  unfold seq, fist_block. rewrite C1.
  destruct (clock f - last_right_click_time self >? config.CLICK_COOLDOWN);
    reflexivity.
Qed.

(** X4. The answers to the poses that need no pinch and no open hand. With no
    pinch in progress: a fist answers a right click when the click cooldown
    since the last right click is over, and nothing while it is pending; an
    index-only hand answers a move to its index fingertip in pixels, the
    landmark's [x] times the frame width and its [y] times the frame
    height, with no cooldown; a thumb-index-open hand and an idle hand
    answer nothing. Only the right click writes a field other than the
    displayed text. *)
Theorem pose_table_outside_pinch :
  forall (self : GestureDetector F) (f : Frame F) (p : positions F),
    frame_positions f = Some p -> is_pinching self = false ->
    match pose p with
    | Fist =>
        step self f =
        if clock f - last_right_click_time self >? config.CLICK_COOLDOWN
        then (set_last_right_click_time (clock f)
                (set_current_gesture "Fist (Right Click)" self), RightClick)
        else (set_current_gesture "Fist (Cooldown)" self, NoCommand)
    | IndexOnly =>
        step self f =
        (set_current_gesture "Move (Index Only)" self,
         Move (x (index p) * of_int (snd (shape f)),
               y (index p) * of_int (fst (shape f))))
    | ThumbIndexOpen =>
        step self f =
        (set_current_gesture "Thumb + Index Open (No Action)" self, NoCommand)
    | Idle => step self f = (set_current_gesture "Idle" self, NoCommand)
    | Pinch | OpenHand => True
    end.
Proof.
  intros self f p Hf Hp.
  pose proof (pose_cases p) as C.
  rewrite (step_hand self f p Hf), hand_body_decision_chain.
  destruct (pose p); try exact I.
  - destruct C as (Hd & C1).
    rewrite (chain_without_pinch p _ _ _ self Hp Hd).
    unfold seq, fist_block. rewrite C1.
    destruct (clock f - last_right_click_time self >? config.CLICK_COOLDOWN);
      reflexivity.
  - destruct C as (Hd & C1 & C2).
    rewrite (chain_without_pinch p _ _ _ self Hp Hd).
    unfold seq, fist_block, index_block. rewrite C1, C2. reflexivity.
  - destruct C as (Hd & C1 & C2 & C3).
    rewrite (chain_without_pinch p _ _ _ self Hp Hd).
    unfold seq, fist_block, index_block, thumb_index_open_block.
    rewrite C1, C2, C3. reflexivity.
  - destruct C as (Hd & C1 & C2 & C3 & C4).
    rewrite (chain_without_pinch p _ _ _ self Hp Hd).
    unfold seq, fist_block, index_block, thumb_index_open_block, open_hand_block.
    rewrite C1, C2, C3, C4. reflexivity.
Qed.

(** X5. Cooldown of the right click: of two fist frames in a row, the first
    after the cooldown, the second answers a right click only when more than
    the click cooldown has passed since the first. *)
Theorem fist_cooldown_suppression :
  forall (self : GestureDetector F) (f1 f2 : Frame F),
    is_pinching self = false ->
    frame_pose f1 = Some Fist -> frame_pose f2 = Some Fist ->
    (clock f1 - last_right_click_time self >? config.CLICK_COOLDOWN) = true ->
    snd (run self [f1; f2]) =
    [RightClick;
     if clock f2 - clock f1 >? config.CLICK_COOLDOWN then RightClick else NoCommand].
Proof.
  intros self f1 f2 Hp H1 H2 Hc.
  unfold frame_pose in H1, H2.
  destruct (frame_positions f1) as [p1|] eqn:E1; [|discriminate].
  destruct (frame_positions f2) as [p2|] eqn:E2; [|discriminate].
  injection H1 as H1. injection H2 as H2.
  pose proof (pose_table_fist self f1 p1 E1 Hp H1) as S1.
  rewrite Hc in S1.
  cbn [run]. rewrite S1.
  set (s1 := set_last_right_click_time _ _).
  assert (Hp1 : is_pinching s1 = false) by exact Hp.
  pose proof (pose_table_fist s1 f2 p2 E2 Hp1 H2) as S2.
  rewrite S2. cbn [last_right_click_time s1 set_last_right_click_time].
  destruct (clock f2 - clock f1 >? config.CLICK_COOLDOWN); reflexivity.
Qed.


(** *** Presses and releases *)

Lemma well_paired_other (down : bool) (ty : gesture_type) (rest : list gesture_type) :
  ty <> left_press -> ty <> left_release ->
  well_paired down (ty :: rest) = well_paired down rest /\
  button_down down (ty :: rest) = button_down down rest.
Proof. destruct ty; intros H1 H2; try contradiction; split; reflexivity. Qed.

(** X6. As long as every frame shows a hand, presses and releases alternate,
    starting with a press when no pinch is in progress, and [is_pinching]
    tells at every moment whether the button is held. *)
Theorem presses_and_releases_alternate :
  forall (frames : list (Frame F)) (self : GestureDetector F),
    Forall (fun f => frame_positions f <> None) frames ->
    well_paired (is_pinching self) (map type (snd (run self frames))) = true /\
    is_pinching (fst (run self frames)) =
    button_down (is_pinching self) (map type (snd (run self frames))).
Proof.
  induction frames as [|f frames IH]; intros self Hall; [split; reflexivity|].
  inversion Hall as [|? ? Hf Hrest]; subst.
  destruct (frame_positions f) as [p|] eqn:Ef; [clear Hf|contradiction].
  pose proof (pinch_flag_with_hand self f p Ef) as Hflag.
  cbn [run]. destruct (step self f) as [s1 r] eqn:Es. cbn [fst snd] in Hflag.
  specialize (IH s1 Hrest).
  destruct (run s1 frames) as [s2 rs]. cbn [fst snd map] in *.
  destruct IH as [IH1 IH2].
  destruct Hflag as [(E0 & E1 & Ety)|[(E0 & E1 & Ety)|(E1 & N1 & N2)]].
  - rewrite Ety, E0. cbn [well_paired button_down negb andb].
    rewrite E1 in IH1, IH2. now split.
  - rewrite Ety, E0. cbn [well_paired button_down andb].
    rewrite E1 in IH1, IH2. now split.
  - destruct (well_paired_other (is_pinching self) (type r) (map type rs) N1 N2)
      as [-> ->].
    rewrite E1 in IH1, IH2. now split.
Qed.

End DetectorFacts.

(** *** What the order of the numbers adds *)

(** The comparison [<] of the arithmetic is taken transitive, and the
    literal 0.12 below the literal 0.13, as they are on doubles and on
    rationals. *)
Section OrderedArithmetic.
Context {F : Type} `{PyFloat F}.
Local Open Scope py_scope.
Hypothesis flt_trans :
  forall a b c : F, (a <? b) = true -> (b <? c) = true -> (a <? c) = true.
Hypothesis lit_012_013 : (lit 0.12 <? lit 0.13 :> bool) = true.

Lemma open_hand_not_thumb_index_open (p : positions F) :
  detect_open_hand p = true -> detect_thumb_index_open p = false ->
  (calculate_distance (thumb p) (index p) >? config.PINCH_THRESHOLD) = false.
Proof.
  unfold detect_open_hand, detect_thumb_index_open.
  intros Ho Ht.
  repeat (apply andb_true_iff in Ho as [Ho ?]).
  assert (Hthumb : (calculate_distance (thumb p) (palm p) >? lit 0.12) = true).
  { apply (flt_trans _ (lit 0.13)); assumption. }
  rewrite Hthumb in Ht.
  match type of Ht with
  | (true && ?i) && _ = false => replace i with true in Ht by (symmetry; assumption)
  end.
  exact Ht.
Qed.

Lemma scroll_from_open_hand_block (self : GestureDetector F) (f : Frame F)
    (p : positions F) :
  frame_positions f = Some p -> type (snd (step self f)) = scroll ->
  detect_open_hand p = true /\ detect_thumb_index_open p = false.
Proof.
  intros Hf.
  rewrite (step_hand self f p Hf), hand_body_decision_chain.
  chain_cases; intros Hs; try discriminate Hs; auto.
Qed.

(** X7. A frame answers a scroll only when the thumb tip and the index tip are
    not further apart than the pinch threshold: with the five fingers
    extended and the two tips further apart, the hand counts as
    thumb-index-open, which is checked first and answers nothing. *)
Theorem scroll_needs_thumb_on_index :
  forall (self : GestureDetector F) (f : Frame F) (p : positions F),
    frame_positions f = Some p ->
    type (snd (step self f)) = scroll ->
    (calculate_distance (thumb p) (index p) >? config.PINCH_THRESHOLD) = false.
Proof.
  intros self f p Hf Hs.
  destruct (scroll_from_open_hand_block self f p Hf Hs) as [Ho Ht].
  now apply open_hand_not_thumb_index_open.
Qed.

(** X8. A hand has the pose of an open hand only when the distance between the
    thumb tip and the index tip is neither below nor above the pinch
    threshold. *)
Theorem open_hand_pose_at_pinch_threshold :
  forall p : positions F,
    pose p = OpenHand ->
    (calculate_distance (thumb p) (index p) <? config.PINCH_THRESHOLD) = false /\
    (calculate_distance (thumb p) (index p) >? config.PINCH_THRESHOLD) = false.
Proof.
  intros p Hpose.
  apply pose_OpenHand in Hpose as (Hd & _ & _ & Ht & Ho).
  split; [exact Hd|]. now apply open_hand_not_thumb_index_open.
Qed.

End OrderedArithmetic.

(** * Further properties of the mouse controller, in exact arithmetic *)

Section ExactPointer.
Local Open Scope Q_scope.

Lemma Qltb_lt (a b : Q) : Qltb a b = true <-> a < b.
Proof.
  unfold Qltb. rewrite negb_true_iff. split.
  - intros E. apply Qnot_le_lt. intros L.
    apply Qle_bool_iff in L. congruence.
  - intros L. destruct (Qle_bool b a) eqn:E; [|reflexivity].
    apply Qle_bool_iff in E. lra.
Qed.

Lemma Qltb_ge (a b : Q) : Qltb a b = false <-> b <= a.
Proof.
  unfold Qltb. rewrite negb_false_iff. apply Qle_bool_iff.
Qed.

(** Truncation keeps a value between the integers that bound it. *)
Lemma Qtrunc_between (q : Q) (m n : Z) :
  (0 <= m)%Z -> inject_Z m <= q -> q <= inject_Z n ->
  (m <= Qtrunc q <= n)%Z.
Proof.
  destruct q as [a b]. unfold Qle, Qtrunc. cbn [Qnum Qden inject_Z].
  rewrite !Z.mul_1_r. intros Hm Hlo Hhi.
  assert (Ha : (0 <= a)%Z) by nia.
  rewrite Z.quot_div_nonneg by lia. split.
  - apply Z.div_le_lower_bound; lia.
  - apply Z.div_le_upper_bound; lia.
Qed.

(** The clamped value lies on the screen, whatever comes in. *)
Lemma clamp_to_screen_range (size : Z) (v : Q) :
  (1 <= size)%Z ->
  inject_Z 0 <= clamp_to_screen size v /\
  clamp_to_screen size v <= inject_Z (size - 1).
Proof.
  intros Hs. unfold clamp_to_screen, py_max, py_min.
  cbn [flt of_int exactQ].
  assert (H0 : inject_Z 0 <= inject_Z (size - 1)).
  { rewrite <- Zle_Qle. lia. }
  destruct (Qltb v (inject_Z (size - 1))) eqn:E1.
  - apply Qltb_lt in E1.
    destruct (Qltb (inject_Z 0) v) eqn:E2.
    + apply Qltb_lt in E2. lra.
    + lra.
  - destruct (Qltb (inject_Z 0) (inject_Z (size - 1))) eqn:E2; lra.
Qed.

(** A value already within bounds that lie on the screen stays within them. *)
Lemma clamp_to_screen_between (size : Z) (v lo hi : Q) :
  inject_Z 0 <= lo -> hi <= inject_Z (size - 1) -> lo <= v -> v <= hi ->
  lo <= clamp_to_screen size v /\ clamp_to_screen size v <= hi.
Proof.
  intros Hlo Hhi H1 H2. unfold clamp_to_screen, py_max, py_min.
  cbn [flt of_int exactQ].
  destruct (Qltb v (inject_Z (size - 1))) eqn:E1.
  - destruct (Qltb (inject_Z 0) v) eqn:E2.
    + lra.
    + apply Qltb_ge in E2. lra.
  - apply Qltb_ge in E1.
    destruct (Qltb (inject_Z 0) (inject_Z (size - 1))) eqn:E2.
    + lra.
    + apply Qltb_ge in E2. lra.
Qed.

Lemma map_coordinates_clamped (self : MouseController Q) (hand_x hand_y : Q)
    (frame_width frame_height : Z) :
  map_coordinates self hand_x hand_y frame_width frame_height =
  (Qtrunc (clamp_to_screen (screen_width self)
             (inject_Z config.SCREEN_PADDING +
              hand_x / inject_Z frame_width * inject_Z (map_width self))),
   Qtrunc (clamp_to_screen (screen_height self)
             (inject_Z config.SCREEN_PADDING +
              hand_y / inject_Z frame_height * inject_Z (map_height self)))).
Proof. reflexivity. Qed.

(** X12. The pointer never leaves the screen: whatever the hand position, the
    target of [map_coordinates] lies between 0 and the screen size minus
    one on both axes. *)
Theorem map_coordinates_on_screen :
  forall (self : MouseController Q) (hand_x hand_y : Q)
         (frame_width frame_height : Z),
    (1 <= screen_width self)%Z -> (1 <= screen_height self)%Z ->
    frame_width <> 0%Z -> frame_height <> 0%Z ->
    let target := map_coordinates self hand_x hand_y frame_width frame_height in
    (0 <= fst target <= screen_width self - 1)%Z /\
    (0 <= snd target <= screen_height self - 1)%Z.
Proof.
  intros self hx hy fw fh Hw Hh _ _ target. subst target.
  rewrite map_coordinates_clamped. cbn [fst snd].
  split; apply Qtrunc_between; try lia;
    now apply clamp_to_screen_range.
Qed.


Lemma padded_target_bounds (size frame : Z) (hand : Q) :
  (2 * config.SCREEN_PADDING <= size)%Z -> (0 < frame)%Z ->
  0 <= hand -> hand <= inject_Z frame ->
  (config.SCREEN_PADDING <=
   Qtrunc (clamp_to_screen size
             (inject_Z config.SCREEN_PADDING +
              hand / inject_Z frame *
              inject_Z (size - 2 * config.SCREEN_PADDING))%Q)
   <= size - config.SCREEN_PADDING)%Z.
Proof.
  unfold config.SCREEN_PADDING. intros Hs Hf H0 H1.
  assert (Hfq : 0 < inject_Z frame).
  { change 0 with (inject_Z 0). rewrite <- Zlt_Qlt. exact Hf. }
  set (n := hand / inject_Z frame).
  assert (Hn0 : 0 <= n).
  { apply Qle_shift_div_l; [exact Hfq|]. lra. }
  assert (Hn1 : n <= 1).
  { apply Qle_shift_div_r; [exact Hfq|]. lra. }
  assert (HM : 0 <= inject_Z (size - 2 * 50)).
  { change 0 with (inject_Z 0). rewrite <- Zle_Qle. lia. }
  assert (E1 : inject_Z (size - 50) == inject_Z 50 + inject_Z (size - 2 * 50)).
  { rewrite <- inject_Z_plus. apply inject_Z_injective. lia. }
  assert (E2 : inject_Z (size - 50) <= inject_Z (size - 1)).
  { rewrite <- Zle_Qle. lia. }
  assert (E3 : inject_Z 0 <= inject_Z 50) by (rewrite <- Zle_Qle; lia).
  assert (P1 : 0 <= n * inject_Z (size - 2 * 50)) by (apply Qmult_le_0_compat; assumption).
  assert (P2 : n * inject_Z (size - 2 * 50) <= inject_Z (size - 2 * 50)).
  { rewrite <- (Qmult_1_l (inject_Z (size - 2 * 50))) at 2.
    apply Qmult_le_compat_r; assumption. }
  apply Qtrunc_between; [lia| |];
    apply (clamp_to_screen_between size _ (inject_Z 50) (inject_Z (size - 50)));
    try assumption; lra.
Qed.

(** X13. The padding is kept: on a screen at least twice the padding wide and
    high, a hand position inside the frame is sent to a target at least the
    padding away from every edge of the screen. *)
Theorem map_coordinates_within_padding :
  forall (w h : Z) (hand_x hand_y : Q) (frame_width frame_height : Z),
    (2 * config.SCREEN_PADDING <= w)%Z -> (2 * config.SCREEN_PADDING <= h)%Z ->
    (0 < frame_width)%Z -> (0 < frame_height)%Z ->
    0 <= hand_x -> hand_x <= inject_Z frame_width ->
    0 <= hand_y -> hand_y <= inject_Z frame_height ->
    let target :=
      map_coordinates (MouseController_init (w, h)) hand_x hand_y
        frame_width frame_height in
    (config.SCREEN_PADDING <= fst target <= w - config.SCREEN_PADDING)%Z /\
    (config.SCREEN_PADDING <= snd target <= h - config.SCREEN_PADDING)%Z.
Proof.
  intros w h hx hy fw fh Hw Hh Hfw Hfh Hx0 Hx1 Hy0 Hy1 target. subst target.
  rewrite map_coordinates_clamped. cbn [fst snd].
  split; now apply padded_target_bounds.
Qed.

End ExactPointer.

(** * The mouse controller on IEEE-754 doubles *)

Section Binary64Pointer.

(** X19. On doubles the pointer never leaves the screen: on a screen of at
    most 32768 by 32768 pixels, whatever the hand position, a NaN or an
    infinity included, the target of [map_coordinates] lies between 0 and
    the screen size minus one on both axes. *)
Theorem map_coordinates_on_screen_binary64 :
  forall (self : MouseController PrimFloat.float) (hand_x hand_y : PrimFloat.float)
         (frame_width frame_height : Z),
    (1 <= screen_width self <= 32768)%Z ->
    (1 <= screen_height self <= 32768)%Z ->
    frame_width <> 0%Z -> frame_height <> 0%Z ->
    let target := map_coordinates self hand_x hand_y frame_width frame_height in
    (0 <= fst target <= screen_width self - 1)%Z /\
    (0 <= snd target <= screen_height self - 1)%Z.
Proof.
  intros self hx hy fw fh Hw Hh _ _ target. subst target.
  now apply map_coordinates_binary64_range.
Qed.

(** A hand position far to the right of and above the frame, on a
    1920x1080 screen. *)
Lemma map_coordinates_on_screen_binary64_witness :
  let self := MouseController_init (F := PrimFloat.float) (1920, 1080)%Z in
  let target := map_coordinates self (lit 5000) (lit (-300)) 640 480 in
  (0 <= fst target <= screen_width self - 1)%Z /\
  (0 <= snd target <= screen_height self - 1)%Z.
Proof.
  intros self.
  apply (map_coordinates_on_screen_binary64 self (lit 5000) (lit (-300)) 640 480);
    cbn; try lia; discriminate.
Defined.

(** X15. The position that [get_index_position] scales by the frame size is
    normalised back by [map_coordinates] with the same frame size; on
    doubles the two roundings need not cancel.  For the index tip of
    [boundary_hand] in the 640x480 frame on a 1920x1080 screen the target
    is (484, 295), where the landmark's own normalised coordinates, and
    the scaled ones in exact arithmetic, give (485, 295). *)
Theorem frame_scaling_rounds :
  let self := MouseController_init (F := PrimFloat.float) (1920, 1080)%Z in
  let p := get_finger_tip_positions (F := PrimFloat.float) boundary_hand in
  let pos := get_index_position p config.FRAME_WIDTH config.FRAME_HEIGHT in
  let exact_self := MouseController_init (F := Q) (1920, 1080)%Z in
  let exact_p := get_finger_tip_positions (F := Q) boundary_hand in
  let exact_pos :=
    get_index_position exact_p config.FRAME_WIDTH config.FRAME_HEIGHT in
  map_coordinates self (fst pos) (snd pos) config.FRAME_WIDTH config.FRAME_HEIGHT =
    (484, 295)%Z /\
  map_coordinates self (x (index p)) (y (index p)) 1 1 = (485, 295)%Z /\
  map_coordinates exact_self (fst exact_pos) (snd exact_pos)
    config.FRAME_WIDTH config.FRAME_HEIGHT = (485, 295)%Z.
Proof. vm_compute. repeat split. Qed.

End Binary64Pointer.

(** * The frame loop and the backend *)

Section Dispatch.
Context {F : Type} `{PyFloat F}.

Lemma main_iteration_calls (gd : GestureDetector F) (mc : MouseController F)
    (f : Frame F) :
  snd (main_iteration gd mc f) =
    if is_none (type (snd (step gd f))) then []
    else snd (execute_gesture mc (snd (step gd f))
                config.FRAME_WIDTH config.FRAME_HEIGHT).
Proof.
  unfold main_iteration, step.
  destruct (recognize_gesture gd (multi_hand_landmarks f) (shape f) (clock f))
    as [gd' r]. cbn [snd].
  destruct (is_none (type r)); cbn [negb]; [reflexivity|].
  destruct (execute_gesture mc r config.FRAME_WIDTH config.FRAME_HEIGHT).
  reflexivity.
Qed.

(** X16. Every result of [recognize_gesture] reaches the backend as its type
    says: a move and a drag make one [moveTo], a press one [mouseDown], a
    release one [mouseUp], a right click one click, a scroll one wheel call
    of 24 notches up or down, a hold and a none make no call. The tests of
    [execute_gesture] on the data never hold a result back. *)
Theorem backend_call_per_result :
  forall (gd : GestureDetector F) (mc : MouseController F) (f : Frame F),
    let out := main_iteration gd mc f in
    let r := snd (fst out) in
    let calls := snd out in
    match type r with
    | move | pinch_drag => exists sx sy, calls = [moveTo sx sy]
    | left_press => calls = [mouseDown_left]
    | left_release => calls = [mouseUp_left]
    | right_click => calls = [click_right]
    | scroll =>
        (data r = Dir up /\ calls = [scroll_wheel 24]) \/
        (data r = Dir down /\ calls = [scroll_wheel (-24)])
    | left_hold | none => calls = []
    end.
Proof.
  intros gd mc f out r calls. subst out r calls.
  destruct (main_iteration_parts gd mc f) as [-> _].
  rewrite main_iteration_calls.
  pose proof (step_data_shape gd f) as D.
  destruct (snd (step gd f)) as [ty d]. cbn [type data] in *.
  destruct ty; cbn [is_none]; unfold execute_gesture; cbn [type data];
    try reflexivity.
  - subst d. unfold move_mouse.
    destruct (frame_index_position f) as [hx hy].
    destruct (map_coordinates mc hx hy config.FRAME_WIDTH config.FRAME_HEIGHT)
      as [sx sy].
    destruct (smooth_coordinates mc sx sy) as [mc' [ox oy]]. now exists ox, oy.
  - subst d. unfold move_mouse.
    destruct (frame_index_position f) as [hx hy].
    destruct (map_coordinates mc hx hy config.FRAME_WIDTH config.FRAME_HEIGHT)
      as [sx sy].
    destruct (smooth_coordinates mc sx sy) as [mc' [ox oy]]. now exists ox, oy.
  - destruct D as [[|] ->]; cbn; auto.
Qed.

End Dispatch.

(** * Instances of the properties above *)

Section Instances.
Local Open Scope py_scope.

(** An index-only hand at 100 s answers a move to (320, 120), by
    [pose_table_outside_pinch]. *)
Lemma pose_table_outside_pinch_witness :
  step fresh_detector (frame_at 100 index_hand) =
  (set_current_gesture "Move (Index Only)" fresh_detector,
   Move (lit 320, lit 120)).
Proof.
  exact (pose_table_outside_pinch fresh_detector (frame_at 100 index_hand)
           (get_finger_tip_positions index_hand) eq_refl eq_refl).
Defined.

(** Two fists 0.125 s apart: a right click, then nothing, by
    [fist_cooldown_suppression]. *)
Lemma fist_cooldown_suppression_witness :
  snd (run fresh_detector [frame_at 100 fist_hand; frame_at 100.125 fist_hand]) =
  [RightClick;
   if clock (frame_at (F := PrimFloat.float) 100.125 fist_hand) -
      clock (frame_at (F := PrimFloat.float) 100 fist_hand) >? config.CLICK_COOLDOWN
   then RightClick else NoCommand].
Proof.
  apply (fist_cooldown_suppression fresh_detector
           (frame_at 100 fist_hand) (frame_at 100.125 fist_hand)).
  - reflexivity.
  - vm_compute; reflexivity.
  - vm_compute; reflexivity.
  - vm_compute; reflexivity.
Defined.

(** A press, a hold, a release and a second press, by
    [presses_and_releases_alternate]. *)
Lemma presses_and_releases_alternate_witness :
  let frames : list (Frame PrimFloat.float) :=
    [frame_at 100 pinch_hand; frame_at 100.5 pinch_hand;
     frame_at 101 relaxed_hand; frame_at 102 pinch_hand] in
  well_paired (is_pinching fresh_detector)
    (map type (snd (run fresh_detector frames))) = true /\
  is_pinching (fst (run fresh_detector frames)) =
  button_down (is_pinching fresh_detector)
    (map type (snd (run fresh_detector frames))).
Proof.
  intros frames.
  apply (presses_and_releases_alternate frames fresh_detector).
  repeat constructor; discriminate.
Defined.

(** The scroll of the second of two open-hand frames started with the
    reference of the first, by [scroll_needs_reference]. *)
Lemma scroll_needs_reference_witness :
  prev_open_hand_y (fst (step fresh_detector (frame_at 100 open_hand_low))) <> None.
Proof.
  apply (scroll_needs_reference
           (fst (step fresh_detector (frame_at 100 open_hand_low)))
           (frame_at 100.5 open_hand_high)).
  vm_compute. reflexivity.
Defined.

(** The first open-hand frame of a fresh detector, by
    [first_open_hand_frame_sets_reference]. *)
Lemma first_open_hand_frame_sets_reference_witness :
  snd (step fresh_detector (frame_at 100 open_hand_high)) = NoCommand /\
  prev_open_hand_y (fst (step fresh_detector (frame_at 100 open_hand_high))) =
  Some (palm_y (get_finger_tip_positions open_hand_high)
          (fst (shape (frame_at (F := PrimFloat.float) 100 open_hand_high)))).
Proof.
  apply (first_open_hand_frame_sets_reference fresh_detector
           (frame_at 100 open_hand_high)
           (get_finger_tip_positions open_hand_high)).
  - reflexivity.
  - vm_compute; reflexivity.
  - reflexivity.
  - reflexivity.
Defined.

(** A pinch seen by a fresh detector at 100 s, by
    [pinch_first_outside_cooldown]. *)
Lemma pinch_first_outside_cooldown_witness :
  type (snd (step fresh_detector (frame_at 100 pinch_hand))) = left_press \/
  type (snd (step fresh_detector (frame_at 100 pinch_hand))) = left_hold \/
  type (snd (step fresh_detector (frame_at 100 pinch_hand))) = pinch_drag.
Proof.
  apply (pinch_first_outside_cooldown fresh_detector (frame_at 100 pinch_hand)).
  - vm_compute; reflexivity.
  - right. vm_compute; reflexivity.
Defined.

End Instances.

Section ExactInstances.
Local Open Scope Q_scope.

Lemma Qltb_trans (a b c : Q) :
  Qltb a b = true -> Qltb b c = true -> Qltb a c = true.
Proof.
  rewrite !Qltb_lt. apply Qlt_trans.
Qed.

(** The open hands of the samples, in exact arithmetic: the second of two
    frames answers a scroll, and its thumb and index tips are exactly the
    pinch threshold apart; by [scroll_needs_thumb_on_index]. *)
Lemma scroll_needs_thumb_on_index_witness :
  let p : positions Q := get_finger_tip_positions open_hand_high in
  flt config.PINCH_THRESHOLD (calculate_distance (thumb p) (index p)) = false.
Proof.
  intros p.
  apply (@scroll_needs_thumb_on_index Q exactQ Qltb_trans eq_refl
           (fst (step GestureDetector_init (frame_at 100 open_hand_low)))
           (frame_at 100.5 open_hand_high) p).
  - reflexivity.
  - vm_compute; reflexivity.
Defined.

(** The same hand, by [open_hand_pose_at_pinch_threshold]. *)
Lemma open_hand_pose_at_pinch_threshold_witness :
  let p : positions Q := get_finger_tip_positions open_hand_high in
  flt (calculate_distance (thumb p) (index p)) config.PINCH_THRESHOLD = false /\
  flt config.PINCH_THRESHOLD (calculate_distance (thumb p) (index p)) = false.
Proof.
  intros p.
  apply (@open_hand_pose_at_pinch_threshold Q exactQ Qltb_trans eq_refl p).
  vm_compute; reflexivity.
Defined.

(** A hand far outside a 640x480 frame on a 1920x1080 screen, by
    [map_coordinates_on_screen]: the target is the corner (1919, 0). *)
Lemma map_coordinates_on_screen_witness :
  let target :=
    map_coordinates (MouseController_init (F := Q) (1920, 1080)%Z)
      5000 (-700) 640 480 in
  (0 <= fst target <= 1920 - 1)%Z /\ (0 <= snd target <= 1080 - 1)%Z.
Proof.
  intros target.
  apply (map_coordinates_on_screen (MouseController_init (1920, 1080)%Z)
           5000 (-700) 640 480);
    cbn; lia.
Defined.

(** The corner (640, 480) of the frame on a 1920x1080 screen, by
    [map_coordinates_within_padding]: the target is (1870, 1030). *)
Lemma map_coordinates_within_padding_witness :
  let target :=
    map_coordinates (MouseController_init (F := Q) (1920, 1080)%Z)
      640 480 640 480 in
  (config.SCREEN_PADDING <= fst target <= 1920 - config.SCREEN_PADDING)%Z /\
  (config.SCREEN_PADDING <= snd target <= 1080 - config.SCREEN_PADDING)%Z.
Proof.
  intros target.
  apply (map_coordinates_within_padding 1920 1080 640 480 640 480);
    cbn; try lia; try lra; discriminate.
Defined.

End ExactInstances.

(** * The frame loop when the backend raises *)

Section BackendFailures.
Context {F : Type} `{PyFloat F}.
Variable backend : pyautogui_call -> backend_outcome.

Lemma execute_gesture_guarded_state (mc : MouseController F)
    (r : gesture_result F) (fw fh : Z) :
  fst (execute_gesture_guarded backend mc r fw fh) = fst (execute_gesture mc r fw fh).
Proof.
  unfold execute_gesture_guarded, execute_gesture, move_mouse_guarded, move_mouse.
  destruct r as [ty d]. cbn [type data].
  destruct ty; destruct d as [|[hx hy]|dir]; try reflexivity.
  all: destruct (map_coordinates mc hx hy fw fh) as [sx sy].
  all: destruct (smooth_coordinates mc sx sy) as [mc' [ox oy]]; reflexivity.
Qed.

Lemma swallowing_no_exception (c : pyautogui_call) :
  swallowing backend c = no_exception.
Proof. unfold swallowing. destruct (backend c); reflexivity. Qed.

(** The fail-safe exception leaves [execute_gesture] only from the
    [moveTo] of a move or a drag. *)
Lemma execute_gesture_guarded_fail_safe (mc : MouseController F)
    (r : gesture_result F) (fw fh : Z) :
  snd (execute_gesture_guarded backend mc r fw fh) = FailSafeException <->
  exists sx sy,
    snd (execute_gesture mc r fw fh) = [moveTo sx sy] /\
    backend (moveTo sx sy) = raises_FailSafeException.
Proof.
  unfold execute_gesture_guarded, execute_gesture, move_mouse_guarded, move_mouse,
    left_press_guarded, left_release_guarded, right_click_guarded,
    scroll_guarded, scroll_call, reraising.
  destruct r as [ty d]. cbn [type data].
  destruct ty; destruct d as [|[hx hy]|[|]];
    rewrite ?swallowing_no_exception; cbn [fst snd];
    try (split; [discriminate|intros (sx & sy & E & _); discriminate E]).
  all: destruct (map_coordinates mc hx hy fw fh) as [sx sy].
  all: destruct (smooth_coordinates mc sx sy) as [mc' [ox oy]]; cbn [fst snd].
  all: split;
    [ intros E; exists ox, oy; split; [reflexivity|];
      destruct (backend (moveTo ox oy)); [discriminate E|reflexivity|discriminate E]
    | intros (sx' & sy' & [= <- <-] & ->); reflexivity ].
Qed.

(** X18. The frame loop is left exactly when the iteration calls [moveTo] and
    the backend raises the fail-safe exception on it. Raised on a press, a
    release, a right click or a scroll, the fail-safe exception is
    swallowed and the loop goes on. Whatever the backend does, the
    detector, the controller (smoothing included) and the result are those
    of the iteration with a backend that never fails. *)
Theorem loop_stops_only_on_fail_safe_move :
  forall (gd : GestureDetector F) (mc : MouseController F) (f : Frame F),
    let guarded := main_iteration_guarded backend gd mc f in
    let plain := main_iteration gd mc f in
    fst guarded = fst plain /\
    (snd guarded = false <->
     exists sx sy,
       snd plain = [moveTo sx sy] /\
       backend (moveTo sx sy) = raises_FailSafeException).
Proof.
  intros gd mc f guarded plain. subst guarded plain.
  unfold main_iteration_guarded, main_iteration.
  destruct (recognize_gesture gd (multi_hand_landmarks f) (shape f) (clock f))
    as [gd' r].
  destruct (is_none (type r)); cbn [negb].
  - split; [reflexivity|]. cbn [snd].
    split; [discriminate|intros (sx & sy & E & _); discriminate E].
  - pose proof (execute_gesture_guarded_state mc r config.FRAME_WIDTH
                  config.FRAME_HEIGHT) as Es.
    pose proof (execute_gesture_guarded_fail_safe mc r config.FRAME_WIDTH
                  config.FRAME_HEIGHT) as Ef.
    destruct (execute_gesture_guarded backend mc r config.FRAME_WIDTH
                config.FRAME_HEIGHT) as [mc1 e].
    destruct (execute_gesture mc r config.FRAME_WIDTH config.FRAME_HEIGHT)
      as [mc2 calls].
    cbn [fst snd] in *. subst mc2.
    destruct e; cbn [fst snd]; (split; [reflexivity|]).
    + split; [discriminate|]. intros Hx. apply Ef in Hx. discriminate Hx.
    + split; [intros _; now apply Ef|reflexivity].
    + split; [discriminate|]. intros Hx. apply Ef in Hx. discriminate Hx.
Qed.

End BackendFailures.
